(** * Mock IMDS server (test-mock-server-imds.py): model and verified properties

    The program is a forty-line Python script: a [BaseHTTPRequestHandler]
    subclass with a [do_GET] method and a no-op [log_message], and a main
    block that binds an [HTTPServer] to localhost:8080 and serves until it
    is interrupted.

    The development is a shallow embedding.  The script's own functions
    ([do_GET], [log_message], the main block) are transcribed statement by
    statement; the Python library calls they make ([datetime.utcnow],
    [timedelta], [datetime.__add__], [isoformat], [json.dumps],
    [str.encode], [send_response], [send_header], [end_headers],
    [serve_forever], [shutdown]) are modelled after the CPython
    implementation, on the fragment of values the script feeds them. *)

From Stdlib Require Import ZArith Lia Bool List Ascii String.
Import ListNotations.

Local Open Scope string_scope.
Local Open Scope list_scope.
Local Open Scope Z_scope.

(** ** Python's [datetime] module *)

Module Datetime.

(** [datetime.MINYEAR], [datetime.MAXYEAR]. *)
Definition MINYEAR : Z := 1.
Definition MAXYEAR : Z := 9999.

(** [_DAYS_IN_MONTH] and [_DAYS_BEFORE_MONTH], both indexed from 1 with a
    [-1] placeholder at index 0. *)
Definition _DAYS_IN_MONTH : list Z :=
  [-1; 31; 28; 31; 30; 31; 30; 31; 31; 30; 31; 30; 31].

Definition _DAYS_BEFORE_MONTH : list Z :=
  [-1; 0; 31; 59; 90; 120; 151; 181; 212; 243; 273; 304; 334].

(** List indexing by a non-negative index (the script never indexes these
    tables out of range). *)
Definition index (l : list Z) (i : Z) : Z := nth (Z.to_nat i) l 0.

(** [_is_leap(year)]: year % 4 == 0 and (year % 100 != 0 or year % 400 == 0). *)
Definition _is_leap (year : Z) : bool :=
  (year mod 4 =? 0) && (negb (year mod 100 =? 0) || (year mod 400 =? 0)).

(** [_days_before_year(year)]: number of days before January 1st of year. *)
Definition _days_before_year (year : Z) : Z :=
  let y := year - 1 in
  y * 365 + y / 4 - y / 100 + y / 400.

(** [_days_in_month(year, month)]. *)
Definition _days_in_month (year month : Z) : Z :=
  if (month =? 2) && _is_leap year then 29 else index _DAYS_IN_MONTH month.

(** [_days_before_month(year, month)]. *)
Definition _days_before_month (year month : Z) : Z :=
  index _DAYS_BEFORE_MONTH month
  + (if (2 <? month) && _is_leap year then 1 else 0).

(** [_ymd2ord(year, month, day)]: ordinal, with 0001-01-01 as day 1. *)
Definition _ymd2ord (year month day : Z) : Z :=
  _days_before_year year + _days_before_month year month + day.

Definition _DI400Y : Z := Eval cbv in _days_before_year 401.
Definition _DI100Y : Z := Eval cbv in _days_before_year 101.
Definition _DI4Y : Z := Eval cbv in _days_before_year 5.

(** [_MAXORDINAL = date.max.toordinal()] = 3652059. *)
Definition _MAXORDINAL : Z := Eval cbv in _ymd2ord 9999 12 31.

(** The month and day of the [n]-th day (counted from 0) of a year, the
    tail of [_ord2ymd]:
<<
    month = (n + 50) >> 5
    preceding = _DAYS_BEFORE_MONTH[month] + (month > 2 and leapyear)
    if preceding > n:
        month -= 1
        preceding -= _DAYS_IN_MONTH[month] + (month == 2 and leapyear)
    n -= preceding
    return year, month, n+1
>> *)
Definition month_day (leapyear : bool) (n : Z) : Z * Z :=
  let month := Z.shiftr (n + 50) 5 in
  let preceding :=
    index _DAYS_BEFORE_MONTH month
    + (if (2 <? month) && leapyear then 1 else 0) in
  if n <? preceding then
    let month' := month - 1 in
    let preceding' :=
      preceding
      - (index _DAYS_IN_MONTH month'
         + (if (month' =? 2) && leapyear then 1 else 0)) in
    (month', n - preceding' + 1)
  else (month, n - preceding + 1).

(** [_ord2ymd(n)]: (year, month, day) of ordinal [n]. *)
Definition _ord2ymd (n : Z) : Z * Z * Z :=
  let n := n - 1 in
  let n400 := n / _DI400Y in
  let n := n mod _DI400Y in
  let year := n400 * 400 + 1 in
  let n100 := n / _DI100Y in
  let n := n mod _DI100Y in
  let n4 := n / _DI4Y in
  let n := n mod _DI4Y in
  let n1 := n / 365 in
  let n := n mod 365 in
  let year := year + (n100 * 100 + n4 * 4 + n1) in
  if (n1 =? 4) || (n100 =? 4) then (year - 1, 12, 31)
  else
    let leapyear := (n1 =? 3) && (negb (n4 =? 24) || (n100 =? 3)) in
    let '(month, day) := month_day leapyear n in
    (year, month, day).

(** A naive [datetime] object (tzinfo is None throughout the script). *)
Record datetime : Type := mk_datetime {
  year : Z;
  month : Z;
  day : Z;
  hour : Z;
  minute : Z;
  second : Z;
  microsecond : Z
}.

(** The range checks of the [datetime] constructor ([_check_date_fields],
    [_check_time_fields]): every [datetime] object Python can build
    satisfies them. *)
Definition check_fields (d : datetime) : bool :=
  (MINYEAR <=? year d) && (year d <=? MAXYEAR)
  && (1 <=? month d) && (month d <=? 12)
  && (1 <=? day d) && (day d <=? _days_in_month (year d) (month d))
  && (0 <=? hour d) && (hour d <=? 23)
  && (0 <=? minute d) && (minute d <=? 59)
  && (0 <=? second d) && (second d <=? 59)
  && (0 <=? microsecond d) && (microsecond d <=? 999999).

(** [datetime.max]. *)
Definition datetime_max : datetime := mk_datetime 9999 12 31 23 59 59 999999.

(** [date.toordinal()]. *)
Definition toordinal (d : datetime) : Z := _ymd2ord (year d) (month d) (day d).

(** A normalised [timedelta]: days, seconds in [0, 86400), microseconds in
    [0, 10^6). *)
Record timedelta_t : Type := mk_timedelta {
  td_days : Z;
  td_seconds : Z;
  td_microseconds : Z
}.

(** Carry microseconds into seconds and seconds into days, as the
    [timedelta] constructor does for integer arguments (floor division). *)
Definition normalize (days seconds microseconds : Z) : timedelta_t :=
  let seconds := seconds + microseconds / 1000000 in
  let microseconds := microseconds mod 1000000 in
  let days := days + seconds / 86400 in
  let seconds := seconds mod 86400 in
  mk_timedelta days seconds microseconds.

(** [timedelta(days, seconds, microseconds, minutes=..., hours=...)] on
    integers. *)
Definition timedelta (days seconds microseconds minutes hours : Z)
  : timedelta_t :=
  normalize days (seconds + 60 * minutes + 3600 * hours) microseconds.

(** [timedelta.__add__]. *)
Definition timedelta_add (a b : timedelta_t) : timedelta_t :=
  normalize (td_days a + td_days b) (td_seconds a + td_seconds b)
            (td_microseconds a + td_microseconds b).

(** [datetime.__add__(self, other)]:
<<
    delta = timedelta(self.toordinal(), hours=self._hour,
                      minutes=self._minute, seconds=self._second,
                      microseconds=self._microsecond)
    delta += other
    hour, rem = divmod(delta.seconds, 3600)
    minute, second = divmod(rem, 60)
    if 0 < delta.days <= _MAXORDINAL:
        return combine(date.fromordinal(delta.days),
                       time(hour, minute, second, delta.microseconds))
    raise OverflowError
>>
    [None] stands for the [OverflowError]. *)
Definition datetime_add (self : datetime) (other : timedelta_t)
  : option datetime :=
  let delta :=
    timedelta (toordinal self) (second self) (microsecond self)
              (minute self) (hour self) in
  let delta := timedelta_add delta other in
  let hour := td_seconds delta / 3600 in
  let rem := td_seconds delta mod 3600 in
  let minute := rem / 60 in
  let second := rem mod 60 in
  if (0 <? td_days delta) && (td_days delta <=? _MAXORDINAL) then
    let '(y, m, d) := _ord2ymd (td_days delta) in
    Some (mk_datetime y m d hour minute second (td_microseconds delta))
  else None.

End Datetime.

(** ** Text: characters, ['%0wd'] formatting, [datetime.isoformat] *)

Module Text.

(** The double quote and the backslash. *)
Definition dquote : ascii := ascii_of_nat 34.
Definition backslash : ascii := ascii_of_nat 92.

Definition code (c : ascii) : Z := Z.of_N (N_of_ascii c).
Definition chr (n : Z) : ascii := ascii_of_N (Z.to_N n).

(** The decimal digit [d], for [0 <= d <= 9]. *)
Definition digit (d : Z) : ascii := chr (48 + d).

(** ['%0wd' % n] for [0 <= n < 10^w]: exactly [w] decimal digits, most
    significant first.  Every field of a [datetime] is in that range for
    the width [isoformat] prints it with. *)
Fixpoint fmt_0d (w : nat) (n : Z) : string :=
  match w with
  | O => EmptyString
  | S w' =>
      String (digit (n / 10 ^ Z.of_nat w'))
             (fmt_0d w' (n mod 10 ^ Z.of_nat w'))
  end.

(** [_format_time(hh, mm, ss, us, timespec='auto')]: the fractional part
    is printed only when [us] is not zero. *)
Definition _format_time (hh mm ss us : Z) : string :=
  let s := (fmt_0d 2 hh ++ ":" ++ fmt_0d 2 mm ++ ":" ++ fmt_0d 2 ss)%string in
  if us =? 0 then s else (s ++ "." ++ fmt_0d 6 us)%string.

(** [datetime.isoformat()] with the default separator ['T'], on a naive
    datetime (no UTC offset is appended). *)
Definition isoformat (d : Datetime.datetime) : string :=
  (fmt_0d 4 (Datetime.year d) ++ "-" ++ fmt_0d 2 (Datetime.month d) ++ "-"
   ++ fmt_0d 2 (Datetime.day d) ++ "T"
   ++ _format_time (Datetime.hour d) (Datetime.minute d) (Datetime.second d)
                   (Datetime.microsecond d))%string.

(** [str.encode()] (UTF-8) on code points below 256: one byte below 128,
    two bytes otherwise. *)
Fixpoint encode (s : string) : string :=
  match s with
  | EmptyString => EmptyString
  | String c s' =>
      if code c <? 128 then String c (encode s')
      else String (chr (192 + code c / 64))
                  (String (chr (128 + code c mod 64)) (encode s'))
  end.

End Text.

(** ** Python's [json.dumps] on a dict of strings *)

Module Json.
Import Text.

(** A Python dict with string keys and string values, in insertion order. *)
Definition dict : Type := list (string * string).

Definition hex_digit (n : Z) : ascii :=
  if n <? 10 then chr (48 + n) else chr (87 + n).

(** One character of [py_encode_basestring_ascii]: the short escapes of
    [ESCAPE_DCT], [\u00xx] for every other character outside [' '..'~'],
    and the character itself otherwise. *)
Definition escape_char (c : ascii) : string :=
  let n := code c in
  if n =? 34 then String backslash (String dquote EmptyString)
  else if n =? 92 then String backslash (String backslash EmptyString)
  else if n =? 10 then String backslash "n"
  else if n =? 13 then String backslash "r"
  else if n =? 9 then String backslash "t"
  else if n =? 8 then String backslash "b"
  else if n =? 12 then String backslash "f"
  else if (n <? 32) || (126 <? n) then
    String backslash
      (String "u" (String "0" (String "0"
         (String (hex_digit (n / 16))
            (String (hex_digit (n mod 16)) EmptyString)))))
  else String c EmptyString.

Fixpoint escape (s : string) : string :=
  match s with
  | EmptyString => EmptyString
  | String c s' => (escape_char c ++ escape s')%string
  end.

(** [encode_basestring_ascii(s)]: the escaped text between double quotes. *)
Definition encode_basestring_ascii (s : string) : string :=
  String dquote (escape s ++ String dquote EmptyString).

(** The members of a dict, [key: value] joined by [", "] (the default
    separators of [json.dumps]). *)
Fixpoint dumps_items (items : dict) : string :=
  match items with
  | [] => EmptyString
  | (k, v) :: rest =>
      let kv := (encode_basestring_ascii k ++ ": "
                 ++ encode_basestring_ascii v)%string in
      match rest with
      | [] => kv
      | _ :: _ => (kv ++ ", " ++ dumps_items rest)%string
      end
  end.

(** [json.dumps(d)]. *)
Definition dumps (d : dict) : string :=
  ("{" ++ dumps_items d ++ "}")%string.

End Json.

(** ** Python's [http.server] and [socketserver] *)

Module HttpServer.

(** The exceptions the script can meet.  [BrokenPipeError] and the other
    socket errors are [OSError]s, told apart by their [errno]. *)
Inductive exception : Type :=
| OverflowError (msg : string)
| OSError (errno : Z)
| KeyboardInterrupt.

(** [errno.EPIPE]. *)
Definition EPIPE : Z := 32.

(** [isinstance(e, Exception)]: [KeyboardInterrupt] derives from
    [BaseException] only. *)
Definition is_Exception (e : exception) : bool :=
  match e with
  | KeyboardInterrupt => false
  | _ => true
  end.

(** What happens on a connection, item by item: what the handler sends,
    and [Broken] where a write failed because the peer had gone. *)
Inductive wire_item : Type :=
| StatusLine (version : string) (code : Z) (message : string)
| HeaderLine (keyword value : string)
| EndOfHeaders
| Data (bytes : string)
| Broken.

(** What reaches [sys.stderr]. *)
Inductive stderr_item : Type :=
| AccessLog (client : string) (format : string) (args : list string)
| HandlerErrorReport (client : string * Z) (e : exception)
| Traceback (e : exception).

(** A GET request as [parse_request] takes it apart: the second word of
    the request line, the protocol version ([HTTP/0.9], the library's
    [default_request_version], when the line has only two words), the
    line itself, the headers and the peer's address.  Requests with
    another method, and request lines the library answers itself with an
    error, never reach [do_GET] and are not modelled. *)
Record request : Type := mk_request {
  target : string;
  request_version : string;
  requestline : string;
  headers : list (string * string);
  client_address : string * Z
}.

(** [s.lstrip(c)]. *)
Fixpoint lstrip (c : ascii) (s : string) : string :=
  match s with
  | String x s' => if Ascii.eqb x c then lstrip c s' else s
  | EmptyString => s
  end.

(** [self.path] as [parse_request] leaves it:
<<
    self.command, self.path = command, path
    if self.path.startswith('//'):
        self.path = '/' + self.path.lstrip('/')  # Reduce to a single /
>> *)
Definition path (r : request) : string :=
  match target r with
  | String a (String b _) =>
      if Ascii.eqb a "/" && Ascii.eqb b "/"
      then String "/" (lstrip "/" (target r))
      else target r
  | _ => target r
  end.

(** [self.request_version == 'HTTP/0.9']: a simple request, which gets
    neither status line nor headers. *)
Definition is_simple (r : request) : bool :=
  String.eqb (request_version r) "HTTP/0.9".

(** What the library reads from its surroundings while one request is
    handled: the clock as [datetime.utcnow()] returns it, the values of
    [version_string()] and [date_time_string()], and how many writes the
    peer of the connection takes before it is gone ([None]: it stays). *)
Record world : Type := mk_world {
  utcnow : Datetime.datetime;
  version_string : string;
  date_time_string : string;
  peer_accepts : option nat
}.

(** The part of [socketserver.BaseServer] the script touches:
    [__shutdown_request] and the [__is_shut_down] event. *)
Record server_state : Type := mk_server {
  shutdown_request : bool;
  is_shut_down : bool
}.

(** The mutable state a handler method can reach: its header buffer, the
    output stream of the connection, the server object ([self.server]),
    [sys.stderr], and the socket: how many more writes its peer takes. *)
Record handler_state : Type := mk_handler {
  _headers_buffer : list wire_item;
  wfile : list wire_item;
  server : server_state;
  sys_stderr : list stderr_item;
  peer : option nat
}.

(** Handler methods: read the request and the world, update the handler
    state, return or raise. *)
Inductive outcome (A : Type) : Type :=
| Return (a : A)
| Raise (e : exception).
Arguments Return {A} a.
Arguments Raise {A} e.

Definition M (A : Type) : Type :=
  request -> world -> handler_state -> outcome A * handler_state.

Definition ret {A} (a : A) : M A := fun _ _ s => (Return a, s).

Definition bind {A B} (m : M A) (k : A -> M B) : M B :=
  fun r w s =>
    match m r w s with
    | (Return a, s') => k a r w s'
    | (Raise e, s') => (Raise e, s')
    end.

Definition raise {A} (e : exception) : M A := fun _ _ s => (Raise e, s).

Definition modify (f : handler_state -> handler_state) : M unit :=
  fun _ _ s => (Return tt, f s).

Definition self_request : M request := fun r _ s => (Return r, s).
Definition the_world : M world := fun _ w s => (Return w, s).

Declare Scope py_scope.
Delimit Scope py_scope with py.
Notation "x <- m ;; k" := (bind m (fun x => k))
  (at level 61, m at next level, right associativity) : py_scope.
Notation "m ;; k" := (bind m (fun _ => k))
  (at level 61, right associativity) : py_scope.
Local Open Scope py_scope.

(** [self.path]. *)
Definition self_path : M string := r <- self_request ;; ret (path r).

(** [datetime.utcnow()]. *)
Definition datetime_utcnow : M Datetime.datetime :=
  w <- the_world ;; ret (utcnow w).

(** [a + b] on a datetime and a timedelta, raising [OverflowError]. *)
Definition datetime_plus (a : Datetime.datetime) (b : Datetime.timedelta_t)
  : M Datetime.datetime :=
  match Datetime.datetime_add a b with
  | Some d => ret d
  | None => raise (OverflowError "date value out of range")
  end.

(** The method a handler class may override. *)
Class HandlerClass : Type := {
  log_message : string -> list string -> M unit
}.

(** [BaseHTTPRequestHandler.log_message]: one line on [sys.stderr]. *)
Definition base_log_message (format : string) (args : list string) : M unit :=
  r <- self_request ;;
  modify (fun s =>
    mk_handler (_headers_buffer s) (wfile s) (server s)
               (sys_stderr s ++ [AccessLog (fst (client_address r)) format args])
               (peer s)).

Definition BaseHTTPRequestHandler : HandlerClass :=
  {| log_message := base_log_message |}.

(** [str(code)] for a three-digit status code. *)
Definition str_code (code : Z) : string := Text.fmt_0d 3 code.

(** The reason phrases of [BaseHTTPRequestHandler.responses] for the codes
    the script sends; the empty string for a code not in the table. *)
Definition responses (code : Z) : string :=
  if code =? 200 then "OK"
  else if code =? 404 then "Not Found"
  else "".

(** [self.wfile.write(data)] on the unbuffered socket writer: the peer
    takes the data, or it has gone and the write raises
    [BrokenPipeError]. *)
Definition socket_write (items : list wire_item) : M unit :=
  fun _ _ s =>
    match peer s with
    | Some O =>
        (Raise (OSError EPIPE),
         mk_handler (_headers_buffer s) (wfile s ++ [Broken]) (server s)
                    (sys_stderr s) (peer s))
    | Some (S k) =>
        (Return tt,
         mk_handler (_headers_buffer s) (wfile s ++ items) (server s)
                    (sys_stderr s) (Some k))
    | None =>
        (Return tt,
         mk_handler (_headers_buffer s) (wfile s ++ items) (server s)
                    (sys_stderr s) None)
    end.

Definition headers_buffer : M (list wire_item) :=
  fun _ _ s => (Return (_headers_buffer s), s).

Section Methods.
Context {cls : HandlerClass}.

(** [log_request(code)]: [self.log_message('"%s" %s %s', self.requestline,
    str(code), '-')]. *)
Definition log_request (code : Z) : M unit :=
  r <- self_request ;;
  log_message
    (String Text.dquote ("%s" ++ String Text.dquote " %s %s")%string)
    [requestline r; str_code code; "-"].

Definition buffer_item (i : wire_item) : M unit :=
  modify (fun s =>
    mk_handler (_headers_buffer s ++ [i]) (wfile s) (server s) (sys_stderr s)
               (peer s)).

(** [send_response_only(code)]: unless the request is a simple one, the
    status line goes to the header buffer ([protocol_version] is the
    default ["HTTP/1.0"]). *)
Definition send_response_only (code : Z) : M unit :=
  r <- self_request ;;
  if negb (is_simple r)
  then buffer_item (StatusLine "HTTP/1.0" code (responses code))
  else ret tt.

(** [send_header(keyword, value)]: unless the request is a simple one,
    the header goes to the buffer. *)
Definition send_header (keyword value : string) : M unit :=
  r <- self_request ;;
  if negb (is_simple r)
  then buffer_item (HeaderLine keyword value)
  else ret tt.

(** [send_response(code)]: log the request, buffer the status line and
    the [Server] and [Date] headers. *)
Definition send_response (code : Z) : M unit :=
  log_request code ;;
  send_response_only code ;;
  w <- the_world ;;
  send_header "Server" (version_string w) ;;
  send_header "Date" (date_time_string w).

(** [flush_headers()]: write the buffer to [wfile], then empty it. *)
Definition flush_headers : M unit :=
  buffer <- headers_buffer ;;
  socket_write buffer ;;
  modify (fun s =>
    mk_handler [] (wfile s) (server s) (sys_stderr s) (peer s)).

(** [end_headers()]: unless the request is a simple one, close the header
    block and flush the buffer. *)
Definition end_headers : M unit :=
  r <- self_request ;;
  if negb (is_simple r)
  then buffer_item EndOfHeaders ;; flush_headers
  else ret tt.

(** [self.wfile.write(data)]. *)
Definition wfile_write (data : string) : M unit :=
  socket_write [Data data].

End Methods.

(** The standard streams and connections of the process, with the server
    object once it is bound. *)
Record process : Type := mk_process {
  stdout : list string;
  stderr : list stderr_item;
  bind_calls : nat;
  the_server : option server_state;
  connections : list (list wire_item)
}.

(** How the process stands after the events seen so far: still blocked in
    [serve_forever], blocked for ever in [shutdown], or exited. *)
Inductive status : Type :=
| Serving
| Deadlocked
| Exited (code : Z).

(** What the listening socket delivers: a GET request (with the world it
    is handled in) or the interrupt signal. *)
Inductive event : Type :=
| Connection (r : request) (w : world)
| SIGINT.

(** The outcome of [socket.bind] at the [n]-th attempt. *)
Inductive bind_outcome : Type :=
| BindOk
| BindError (errno : Z).

(** [HTTPServer(address, handler_class)]: one call to [socket_bind], the
    [calls]-th, for [address]; the [OSError] of a failed bind is raised
    to the caller.  Returns the number of calls made so far as well. *)
Definition HTTPServer (socket_bind : nat -> bind_outcome)
    (address : string * Z) (calls : nat) : outcome server_state * nat :=
  match socket_bind calls with
  | BindOk => (Return (mk_server false false), S calls)
  | BindError errno => (Raise (OSError errno), S calls)
  end.

(** [print(line)]. *)
Definition print (line : string) (out : list string) : list string :=
  out ++ [line].

Section Server.
(** The handler class's [do_GET], as handed to [HTTPServer]. *)
Variable do_GET : M unit.

(** One accepted connection ([process_request]): a fresh handler runs
    [do_GET] on an empty buffer; [finish()] closes [wfile] whatever
    happened; an [Exception] raised by the handler is reported on stderr
    by [handle_error] and the loop goes on, anything else propagates. *)
Definition process_request (r : request) (w : world)
    (srv : server_state) (err : list stderr_item)
  : outcome unit * handler_state :=
  match do_GET r w (mk_handler [] [] srv err (peer_accepts w)) with
  | (Return tt, h) => (Return tt, h)
  | (Raise e, h) =>
      if is_Exception e then
        (Return tt,
         mk_handler (_headers_buffer h) (wfile h) (server h)
                    (sys_stderr h ++ [HandlerErrorReport (client_address r) e])
                    (peer h))
      else (Raise e, h)
  end.

(** The loop of [serve_forever]: [while not self.__shutdown_request]. *)
Fixpoint serve_loop (events : list event) (srv : server_state)
    (err : list stderr_item) (conns : list (list wire_item))
  : option (outcome unit) * server_state * list stderr_item
    * list (list wire_item) :=
  if shutdown_request srv then (Some (Return tt), srv, err, conns)
  else
    match events with
    | [] => (None, srv, err, conns)
    | SIGINT :: _ => (Some (Raise KeyboardInterrupt), srv, err, conns)
    | Connection r w :: rest =>
        match process_request r w srv err with
        | (Return tt, h) =>
            serve_loop rest (server h) (sys_stderr h) (conns ++ [wfile h])
        | (Raise e, h) =>
            (Some (Raise e), server h, sys_stderr h, conns ++ [wfile h])
        end
    end.

(** [serve_forever()]:
<<
    self.__is_shut_down.clear()
    try:
        ... the loop ...
    finally:
        self.__shutdown_request = False
        self.__is_shut_down.set()
>>
    The first component is [None] while the loop is still waiting for
    events. *)
Definition serve_forever (events : list event) (srv : server_state)
    (err : list stderr_item) (conns : list (list wire_item))
  : option (outcome unit) * server_state * list stderr_item
    * list (list wire_item) :=
  let srv0 := mk_server (shutdown_request srv) false in
  match serve_loop events srv0 err conns with
  | (None, srv', err', conns') => (None, srv', err', conns')
  | (Some res, srv', err', conns') =>
      (Some res, mk_server false true, err', conns')
  end.

(** [shutdown()]: set [__shutdown_request] and wait for [__is_shut_down];
    [None] when the wait can never end. *)
Definition shutdown (srv : server_state) : option server_state :=
  if is_shut_down srv then Some (mk_server true (is_shut_down srv))
  else None.

End Server.

End HttpServer.

(** ** The script: [MockIMDSHandler] and the main block *)

Module MockIMDS.
Import HttpServer.
Local Open Scope py_scope.

(** <<
    def log_message(self, format, *args):
        # Suppress default logging
        pass
>> *)
Definition log_message (format : string) (args : list string) : M unit :=
  ret tt.

#[export] Instance MockIMDSHandler : HandlerClass :=
  {| HttpServer.log_message := log_message |}.

(** <<
    def do_GET(self):
        if self.path == '/latest/meta-data/rebalance-recommendation':
            notice_time = (datetime.utcnow() + timedelta(minutes=2)).isoformat() + 'Z'
            response = {
                "noticeTime": notice_time
            }
            self.send_response(200)
            self.send_header('Content-type', 'application/json')
            self.end_headers()
            self.wfile.write(json.dumps(response).encode())
        else:
            self.send_response(404)
            self.end_headers()
>> *)
Definition do_GET : M unit :=
  path <- self_path ;;
  if String.eqb path "/latest/meta-data/rebalance-recommendation" then
    now <- datetime_utcnow ;;
    later <- datetime_plus now (Datetime.timedelta 0 0 0 2 0) ;;
    let notice_time := (Text.isoformat later ++ "Z")%string in
    let response : Json.dict := [("noticeTime", notice_time)] in
    send_response 200 ;;
    send_header "Content-type" "application/json" ;;
    end_headers ;;
    wfile_write (Text.encode (Json.dumps response))
  else
    send_response 404 ;;
    end_headers.

(** <<
    server = HTTPServer(('localhost', 8080), MockIMDSHandler)
    print("Mock IMDS server running on http://localhost:8080")
    print("Test rebalance recommendation endpoint: http://localhost:8080/latest/meta-data/rebalance-recommendation")
    print("Press Ctrl+C to stop")
    try:
        server.serve_forever()
    except KeyboardInterrupt:
        server.shutdown()
>>
    [socket_bind n] is what binding localhost:8080 gives at the [n]-th
    attempt; [events] is what the socket then delivers.  An exception
    nobody catches ends the process with a traceback on stderr and exit
    status 1; falling off the end of the script is exit status 0. *)
Definition main (socket_bind : nat -> bind_outcome) (events : list event)
  : status * process :=
  match HTTPServer socket_bind ("localhost", 8080) 0%nat with
  | (Raise e, calls) =>
      (Exited 1, mk_process [] [Traceback e] calls None [])
  | (Return server, calls) =>
      let out := print "Mock IMDS server running on http://localhost:8080" [] in
      let out := print "Test rebalance recommendation endpoint: http://localhost:8080/latest/meta-data/rebalance-recommendation" out in
      let out := print "Press Ctrl+C to stop" out in
      match serve_forever do_GET events server [] [] with
      | (None, srv, err, conns) =>
          (Serving, mk_process out err calls (Some srv) conns)
      | (Some (Return tt), srv, err, conns) =>
          (Exited 0, mk_process out err calls (Some srv) conns)
      | (Some (Raise KeyboardInterrupt), srv, err, conns) =>
          match shutdown srv with
          | Some srv' => (Exited 0, mk_process out err calls (Some srv') conns)
          | None => (Deadlocked, mk_process out err calls (Some srv) conns)
          end
      | (Some (Raise e), srv, err, conns) =>
          (Exited 1,
           mk_process out (err ++ [Traceback e]) calls (Some srv) conns)
      end
  end.

End MockIMDS.

(** ** What a client observes

    The definitions of this module are not part of the script: they say
    how the properties below read what the script emits (an HTTP response, a JSON
    text, a timestamp). *)

Module Observe.
Import Text HttpServer.

(** An HTTP response as the client parses it off the connection. *)
Record response : Type := mk_response {
  status_code : Z;
  reason : string;
  response_headers : list (string * string);
  body : string
}.

(** The header lines up to the end-of-headers mark, and what follows. *)
Fixpoint read_headers (items : list wire_item)
  : option (list (string * string) * list wire_item) :=
  match items with
  | HeaderLine k v :: rest =>
      match read_headers rest with
      | Some (hs, tl) => Some ((k, v) :: hs, tl)
      | None => None
      end
  | EndOfHeaders :: rest => Some ([], rest)
  | _ => None
  end.

(** The body: every remaining item must be data. *)
Fixpoint read_body (items : list wire_item) : option string :=
  match items with
  | [] => Some EmptyString
  | Data b :: rest =>
      match read_body rest with
      | Some b' => Some (b ++ b')%string
      | None => None
      end
  | _ => None
  end.

(** The response carried by a closed connection, if it is one. *)
Definition client_view (wire : list wire_item) : option response :=
  match wire with
  | StatusLine _ c m :: rest =>
      match read_headers rest with
      | Some (hs, tl) =>
          match read_body tl with
          | Some b => Some (mk_response c m hs b)
          | None => None
          end
      | None => None
      end
  | _ => None
  end.

(** Header names are compared without regard to case. *)
Definition lower_char (c : ascii) : ascii :=
  if (65 <=? code c) && (code c <=? 90) then chr (code c + 32) else c.

Fixpoint lower (s : string) : string :=
  match s with
  | EmptyString => EmptyString
  | String c s' => String (lower_char c) (lower s')
  end.

Definition header_values (name : string) (hs : list (string * string))
  : list string :=
  map snd (filter (fun kv => String.eqb (lower (fst kv)) (lower name)) hs).

(** *** Reading a JSON object of strings *)

Definition is_ws (c : ascii) : bool :=
  (code c =? 32) || (code c =? 9) || (code c =? 10) || (code c =? 13).

Fixpoint skip_ws (s : string) : string :=
  match s with
  | String c s' => if is_ws c then skip_ws s' else s
  | EmptyString => s
  end.

Definition hex_value (c : ascii) : option Z :=
  let n := code c in
  if (48 <=? n) && (n <=? 57) then Some (n - 48)
  else if (97 <=? n) && (n <=? 102) then Some (n - 87)
  else if (65 <=? n) && (n <=? 70) then Some (n - 55)
  else None.

(** The character a one-letter escape stands for. *)
Definition unescape (c : ascii) : option ascii :=
  let n := code c in
  if n =? 34 then Some dquote
  else if n =? 92 then Some backslash
  else if n =? 47 then Some c
  else if n =? 110 then Some (chr 10)
  else if n =? 114 then Some (chr 13)
  else if n =? 116 then Some (chr 9)
  else if n =? 98 then Some (chr 8)
  else if n =? 102 then Some (chr 12)
  else None.

(** The text of a JSON string whose opening quote has been read, and the
    input after its closing quote.  Code points of 256 and more are
    outside the alphabet and rejected. *)
Fixpoint scan_string (s : string) : option (string * string) :=
  match s with
  | EmptyString => None
  | String c rest =>
      if code c =? 34 then Some (EmptyString, rest)
      else if code c =? 92 then
        match rest with
        | String e rest1 =>
            if code e =? 117 then
              match rest1 with
              | String h3 (String h2 (String h1 (String h0 rest2))) =>
                  match hex_value h3, hex_value h2, hex_value h1, hex_value h0 with
                  | Some 0, Some 0, Some a, Some b =>
                      match scan_string rest2 with
                      | Some (t, tl) => Some (String (chr (16 * a + b)) t, tl)
                      | None => None
                      end
                  | _, _, _, _ => None
                  end
              | _ => None
              end
            else
              match unescape e with
              | Some u =>
                  match scan_string rest1 with
                  | Some (t, tl) => Some (String u t, tl)
                  | None => None
                  end
              | None => None
              end
        | EmptyString => None
        end
      else if code c <? 32 then None
      else
        match scan_string rest with
        | Some (t, tl) => Some (String c t, tl)
        | None => None
        end
  end.

(** A JSON string after optional white space. *)
Definition read_string (s : string) : option (string * string) :=
  match skip_ws s with
  | String c rest => if code c =? 34 then scan_string rest else None
  | EmptyString => None
  end.

(** A given character after optional white space. *)
Definition read_char (n : Z) (s : string) : option string :=
  match skip_ws s with
  | String c rest => if code c =? n then Some rest else None
  | EmptyString => None
  end.

(** The members of an object up to and including its closing brace. *)
Fixpoint read_members (fuel : nat) (s : string) : option (Json.dict * string) :=
  match fuel with
  | O => None
  | S fuel' =>
      match read_string s with
      | Some (k, s1) =>
          match read_char 58 s1 with
          | Some s2 =>
              match read_string s2 with
              | Some (v, s3) =>
                  match read_char 125 s3 with
                  | Some s4 => Some ([(k, v)], s4)
                  | None =>
                      match read_char 44 s3 with
                      | Some s4 =>
                          match read_members fuel' s4 with
                          | Some (d, s5) => Some ((k, v) :: d, s5)
                          | None => None
                          end
                      | None => None
                      end
                  end
              | None => None
              end
          | None => None
          end
      | None => None
      end
  end.

(** [loads s]: the members, in order, of the JSON object of strings that
    [s] is; [None] when [s] is not one. *)
Definition loads (s : string) : option Json.dict :=
  match read_char 123 s with
  | Some s1 =>
      match read_char 125 s1 with
      | Some s2 =>
          match skip_ws s2 with
          | EmptyString => Some []
          | _ => None
          end
      | None =>
          match read_members (String.length s) s1 with
          | Some (d, s2) =>
              match skip_ws s2 with
              | EmptyString => Some d
              | _ => None
              end
          | None => None
          end
      end
  | None => None
  end.

(** *** Reading a timestamp *)

Definition digit_value (c : ascii) : option Z :=
  let n := code c in
  if (48 <=? n) && (n <=? 57) then Some (n - 48) else None.

(** Exactly [w] decimal digits. *)
Fixpoint read_digits (w : nat) (acc : Z) (s : string) : option (Z * string) :=
  match w with
  | O => Some (acc, s)
  | S w' =>
      match s with
      | String c rest =>
          match digit_value c with
          | Some d => read_digits w' (10 * acc + d) rest
          | None => None
          end
      | EmptyString => None
      end
  end.

Definition expect (n : Z) (s : string) : option string :=
  match s with
  | String c rest => if code c =? n then Some rest else None
  | EmptyString => None
  end.

(** The datetime written [YYYY-MM-DDTHH:MM:SS], with or without a
    six-digit fraction, and a final [Z]. *)
Definition read_notice_time (s : string) : option Datetime.datetime :=
  match read_digits 4 0 s with
  | Some (y, s) =>
  match expect 45 s with
  | Some s =>
  match read_digits 2 0 s with
  | Some (mo, s) =>
  match expect 45 s with
  | Some s =>
  match read_digits 2 0 s with
  | Some (d, s) =>
  match expect 84 s with
  | Some s =>
  match read_digits 2 0 s with
  | Some (h, s) =>
  match expect 58 s with
  | Some s =>
  match read_digits 2 0 s with
  | Some (mi, s) =>
  match expect 58 s with
  | Some s =>
  match read_digits 2 0 s with
  | Some (se, s) =>
      match expect 46 s with
      | Some s =>
          match read_digits 6 0 s with
          | Some (us, "Z"%string) =>
              Some (Datetime.mk_datetime y mo d h mi se us)
          | _ => None
          end
      | None =>
          match s with
          | "Z"%string => Some (Datetime.mk_datetime y mo d h mi se 0)
          | _ => None
          end
      end
  | None => None end
  | None => None end
  | None => None end
  | None => None end
  | None => None end
  | None => None end
  | None => None end
  | None => None end
  | None => None end
  | None => None end
  | None => None end.

(** The instant a datetime denotes on the UTC time line, in microseconds
    from 0001-01-01T00:00:00 (proleptic Gregorian calendar). *)
Definition instant (d : Datetime.datetime) : Z :=
  (((Datetime.toordinal d - 1) * 86400
    + Datetime.hour d * 3600 + Datetime.minute d * 60 + Datetime.second d)
   * 1000000)
  + Datetime.microsecond d.

(** *** Shapes of text: [d] in a pattern stands for any decimal digit,
    every other character for itself. *)
Fixpoint has_shape (pattern s : string) : bool :=
  match pattern, s with
  | EmptyString, EmptyString => true
  | String p pattern', String c s' =>
      (if code p =? 100
       then match digit_value c with Some _ => true | None => false end
       else code p =? code c)
      && has_shape pattern' s'
  | _, _ => false
  end.

(** *** The endpoint *)

(** The three lines the program announces itself with. *)
Definition startup_lines : list string :=
  [ "Mock IMDS server running on http://localhost:8080";
    "Test rebalance recommendation endpoint: http://localhost:8080/latest/meta-data/rebalance-recommendation";
    "Press Ctrl+C to stop" ].

(** The one path the mock answers. *)
Definition recognized_path : string :=
  "/latest/meta-data/rebalance-recommendation".

(** What is on the connection once request [r], arriving in world [w], has
    been processed by a server in state [srv] with [err] on stderr. *)
Definition wire_of (r : request) (w : world) (srv : server_state)
    (err : list stderr_item) : list wire_item :=
  wfile (snd (process_request MockIMDS.do_GET r w srv err)).

(** The response the client reads off that connection. *)
Definition response_to (r : request) (w : world) (srv : server_state)
    (err : list stderr_item) : option response :=
  client_view (wire_of r w srv err).

(** The value of [noticeTime] in a response whose body is a JSON object
    with that single key. *)
Definition notice_time_of (resp : response) : option string :=
  match loads (body resp) with
  | Some [(k, v)] => if String.eqb k "noticeTime" then Some v else None
  | _ => None
  end.

(** The two connections the proofs meet: the notice for the datetime
    [later], and the not-found answer. *)
Definition notice_wire (w : world) (later : Datetime.datetime)
  : list wire_item :=
  [ StatusLine "HTTP/1.0" 200 "OK";
    HeaderLine "Server" (version_string w);
    HeaderLine "Date" (date_time_string w);
    HeaderLine "Content-type" "application/json";
    EndOfHeaders;
    Data (encode (Json.dumps
            [("noticeTime", (isoformat later ++ "Z")%string)])) ].

Definition not_found_wire (w : world) : list wire_item :=
  [ StatusLine "HTTP/1.0" 404 "Not Found";
    HeaderLine "Server" (version_string w);
    HeaderLine "Date" (date_time_string w);
    EndOfHeaders ].

(** The offset of the notice, two minutes, in microseconds. *)
Definition notice_offset : Z := 120 * 1000000.

(** [now + 2 minutes] is still a datetime. *)
Definition representable (now : Datetime.datetime) : bool :=
  instant now + notice_offset <=? instant Datetime.datetime_max.

(** The request line carries a protocol version, other than HTTP/0.9:
    the library sends the status line and the headers. *)
Definition http_1x (r : request) : bool := negb (is_simple r).

(** The peer of the connection takes [n] writes at least. *)
Definition accepts (n : nat) (w : world) : bool :=
  match peer_accepts w with
  | None => true
  | Some k => (n <=? k)%nat
  end.

(** The writes [do_GET] makes for a request when nothing goes wrong: the
    header block, unless the request is a simple one, and the body,
    when the path is the recognized one. *)
Definition writes_of (r : request) : nat :=
  ((if is_simple r then 0 else 1)
   + (if String.eqb (path r) recognized_path then 1 else 0))%nat.

(** An event whose handling ends without an exception: the interrupt
    apart, a request whose writes the peer all takes, for another path
    or for the recognized path at a clock reading two minutes before the
    end of the calendar at the latest. *)
Definition completes (e : event) : bool :=
  match e with
  | SIGINT => true
  | Connection r w =>
      (negb (String.eqb (path r) recognized_path)
       || (Datetime.check_fields (utcnow w) && representable (utcnow w)))
      && accepts (writes_of r) w
  end.

(** A run of requests, as events. *)
Definition requests (l : list (request * world)) : list event :=
  map (fun rw => Connection (fst rw) (snd rw)) l.

(** The noticeTime read off each connection of a process. *)
Definition notice_times (p : process) : list (option string) :=
  map (fun c => match client_view c with
                | Some resp => notice_time_of resp
                | None => None
                end)
      (connections p).


(** The text of a notice body: the JSON object whose single member
    [noticeTime] is the string [s], as [json.dumps] spaces it. *)
Definition notice_body (s : string) : string :=
  String "{" (String dquote ("noticeTime" ++ String dquote (": "
    ++ String dquote (s ++ String dquote "}"))))%string.

(** The names of the headers of a response, in the order sent. *)
Definition header_names (resp : response) : list string :=
  map fst (response_headers resp).

End Observe.

(** ** Checkers used by the proofs *)

Module Checks.
Import Datetime.

(** [month_day] returns a month in 1..12 and a day of that month, and
    they denote the day it was given. *)
Definition month_day_ok (leap : bool) (k : Z) : bool :=
  let '(m, d) := month_day leap k in
  (1 <=? m) && (m <=? 12) && (1 <=? d)
  && (d <=? (if (m =? 2) && leap then 29 else index _DAYS_IN_MONTH m))
  && (index _DAYS_BEFORE_MONTH m
      + (if (2 <? m) && leap then 1 else 0) + d =? k + 1).

(** The pattern of [w] digits. *)
Fixpoint digits_pattern (w : nat) : string :=
  match w with
  | O => EmptyString
  | S w' => String "d" (digits_pattern w')
  end.

(** Every character of [s] is ASCII. *)
Fixpoint is_ascii (s : string) : bool :=
  match s with
  | EmptyString => true
  | String c s' => (Text.code c <? 128) && is_ascii s'
  end.

(** Stderr and the connections after the loop has taken the requests
    [l], one after the other. *)
Fixpoint served (l : list (HttpServer.request * HttpServer.world))
    (srv : HttpServer.server_state) (err : list HttpServer.stderr_item)
    (conns : list (list HttpServer.wire_item))
  : list HttpServer.stderr_item * list (list HttpServer.wire_item) :=
  match l with
  | [] => (err, conns)
  | (r, w) :: l' =>
      served l' srv
        (HttpServer.sys_stderr
           (snd (HttpServer.process_request MockIMDS.do_GET r w srv err)))
        (conns ++ [Observe.wire_of r w srv err])
  end.

(** Every character of [s] is printable ASCII other than the double
    quote and the backslash: [json.dumps] writes it as it is. *)
Definition plain_char (c : ascii) : bool :=
  (32 <=? Text.code c) && (Text.code c <=? 126)
  && negb (Text.code c =? 34) && negb (Text.code c =? 92).

Fixpoint plain (s : string) : bool :=
  match s with
  | EmptyString => true
  | String c s' => plain_char c && plain s'
  end.

(** [d.replace(microsecond=us)]. *)
Definition replace_microsecond (d : datetime) (us : Z) : datetime :=
  mk_datetime (year d) (month d) (day d) (hour d) (minute d) (second d) us.


Definition report (rw : HttpServer.request * HttpServer.world)
  : HttpServer.stderr_item :=
  HttpServer.HandlerErrorReport (HttpServer.client_address (fst rw))
    (HttpServer.OverflowError "date value out of range").



(** The report of a write that failed. *)
Definition broken_pipe (r : HttpServer.request) : HttpServer.stderr_item :=
  HttpServer.HandlerErrorReport (HttpServer.client_address r)
    (HttpServer.OSError HttpServer.EPIPE).

(** How many more writes the peer takes once it has taken [n]. *)
Fixpoint taken (n k : nat) : nat :=
  match n with
  | O => k
  | S n' => match k with O => O | S k' => taken n' k' end
  end.

Definition after_writes (n : nat) (p : option nat) : option nat :=
  option_map (taken n) p.

(** The header block of the 200 response, and the body for [later]. *)
Definition notice_head (w : HttpServer.world) : list HttpServer.wire_item :=
  [ HttpServer.StatusLine "HTTP/1.0" 200 "OK";
    HttpServer.HeaderLine "Server" (HttpServer.version_string w);
    HttpServer.HeaderLine "Date" (HttpServer.date_time_string w);
    HttpServer.HeaderLine "Content-type" "application/json";
    HttpServer.EndOfHeaders ].

Definition notice_data (later : datetime) : HttpServer.wire_item :=
  HttpServer.Data
    (Text.encode (Json.dumps
       [("noticeTime", (Text.isoformat later ++ "Z")%string)])).

End Checks.

(** ** Concrete requests and clock readings *)

Module Examples.
Import Datetime HttpServer.

(** [GET target HTTP/1.1], as curl sends it. *)
Definition get (target : string) : request :=
  mk_request target "HTTP/1.1" ("GET " ++ target ++ " HTTP/1.1")%string
             [("Host", "localhost:8080")] ("127.0.0.1", 54321).

(** [GET target], a request line without a version. *)
Definition get_simple (target : string) : request :=
  mk_request target "HTTP/0.9" ("GET " ++ target)%string
             [] ("127.0.0.1", 54321).

(** A peer that stays until the connection is closed. *)
Definition at_time (t : datetime) (date : string) : world :=
  mk_world t "BaseHTTP/0.6 Python/3.11.4" date None.

(** The same world with a peer that is gone after [n] writes. *)
Definition peer_gone_after (n : nat) (w : world) : world :=
  mk_world (utcnow w) (version_string w) (date_time_string w) (Some n).

(** 2024-01-01T00:00:00, the scenario of the specification. *)
Definition new_year_2024 : world :=
  at_time (mk_datetime 2024 1 1 0 0 0 0) "Mon, 01 Jan 2024 00:00:00 GMT".

(** 2023-12-31T23:59:30.000005: two minutes later is another year. *)
Definition new_year_eve : world :=
  at_time (mk_datetime 2023 12 31 23 59 30 5) "Sun, 31 Dec 2023 23:59:30 GMT".

(** 9999-12-31T23:58:00: two minutes later is past [datetime.max]. *)
Definition end_of_calendar : world :=
  at_time (mk_datetime 9999 12 31 23 58 0 0) "Fri, 31 Dec 9999 23:58:00 GMT".

Definition a_server : server_state := mk_server false false.

(** Binding fails with EADDRINUSE at the first attempt and would succeed
    at any later one. *)
Definition port_in_use (n : nat) : bind_outcome :=
  match n with
  | O => BindError 98
  | S _ => BindOk
  end.

End Examples.

(** * Properties *)

Import Datetime Text HttpServer MockIMDS Observe Checks Examples.

(** [lia] with floor division and remainder by constants. *)
Ltac divlia := Z.to_euclidean_division_equations; lia.

(** A field lies within the width it is printed with. *)
Ltac field_bounds :=
  match goal with
  | |- 0 <= _ < 10 ^ Z.of_nat ?w =>
      let p := eval vm_compute in (10 ^ Z.of_nat w) in
      change (10 ^ Z.of_nat w) with p; lia
  end.

(** ** The calendar arithmetic of [datetime] *)

Lemma is_leap_iff y :
  _is_leap y = true <-> (y mod 4 = 0 /\ (y mod 100 <> 0 \/ y mod 400 = 0)).
Proof.
  unfold _is_leap.
  rewrite andb_true_iff, orb_true_iff, negb_true_iff, !Z.eqb_eq, Z.eqb_neq.
  tauto.
Qed.

Section YearPart.
(** The year part of [_ord2ymd], on the day number [n] counted from 0. *)
Variable n : Z.
Hypothesis Hn : 0 <= n <= 3652058.
Let n400 := n / 146097.
Let r1 := n mod 146097.
Let n100 := r1 / 36524.
Let r2 := r1 mod 36524.
Let n4 := r2 / 1461.
Let r3 := r2 mod 1461.
Let n1 := r3 / 365.
Let r4 := r3 mod 365.
Let y := n400 * 400 + 1 + (n100 * 100 + n4 * 4 + n1).

(** The 366th day of a leap year. *)
Lemma year_last_day :
  n1 = 4 \/ n100 = 4 ->
  _days_before_year (y - 1) + 365 = n /\
  ((y - 1) mod 4 = 0 /\ ((y - 1) mod 100 <> 0 \/ (y - 1) mod 400 = 0)) /\
  1 <= y - 1 <= 9999.
Proof.
  unfold _days_before_year, y, r4, n1, r3, n4, r2, n100, r1, n400.
  intros H. divlia.
Qed.

(** Any other day. *)
Lemma year_other_day :
  n1 <> 4 -> n100 <> 4 ->
  _days_before_year y = n - r4 /\ 0 <= r4 <= 364 /\ 1 <= y <= 9999 /\
  ((y mod 4 = 0 /\ (y mod 100 <> 0 \/ y mod 400 = 0)) <->
   (n1 = 3 /\ (n4 <> 24 \/ n100 = 3))).
Proof.
  unfold _days_before_year, y, r4, n1, r3, n4, r2, n100, r1, n400.
  intros H H'. divlia.
Qed.

End YearPart.

Lemma month_day_checked :
  forallb (fun k => month_day_ok true (Z.of_nat k)
                    && month_day_ok false (Z.of_nat k))
          (seq 0 365) = true.
Proof. vm_compute. reflexivity. Qed.

Lemma month_day_spec leap k :
  0 <= k <= 364 ->
  let '(m, d) := month_day leap k in
  1 <= m <= 12 /\
  1 <= d <= (if (m =? 2) && leap then 29 else index _DAYS_IN_MONTH m) /\
  index _DAYS_BEFORE_MONTH m + (if (2 <? m) && leap then 1 else 0) + d
  = k + 1.
Proof.
  intros Hk.
  pose proof month_day_checked as H.
  rewrite forallb_forall in H.
  specialize (H (Z.to_nat k)).
  rewrite Z2Nat.id in H by lia.
  assert (Hin : In (Z.to_nat k) (seq 0 365)) by (apply in_seq; lia).
  apply H in Hin. apply andb_true_iff in Hin as [Ht Hf].
  assert (Hok : month_day_ok leap k = true) by (destruct leap; assumption).
  clear H Ht Hf. unfold month_day_ok in Hok.
  destruct (month_day leap k) as [m d].
  rewrite !andb_true_iff in Hok.
  destruct Hok as [[[[H1 H2] H3] H4] H5].
  apply Z.leb_le in H1, H2, H3, H4. apply Z.eqb_eq in H5.
  lia.
Qed.

(** [_ord2ymd] returns a date of the calendar, and [_ymd2ord] takes it
    back to the ordinal. *)
Lemma ord2ymd_spec n :
  1 <= n <= _MAXORDINAL ->
  let '(y, m, d) := _ord2ymd n in
  1 <= y <= 9999 /\ 1 <= m <= 12 /\ 1 <= d <= _days_in_month y m /\
  _ymd2ord y m d = n.
Proof.
  unfold _MAXORDINAL. intros Hn.
  assert (Hn0 : 0 <= n - 1 <= 3652058) by lia.
  unfold _ord2ymd, _DI400Y, _DI100Y, _DI4Y.
  set (n0 := n - 1) in *.
  destruct ((n0 mod 146097 mod 36524 mod 1461 / 365 =? 4)
            || (n0 mod 146097 / 36524 =? 4)) eqn:Hlast.
  - apply orb_true_iff in Hlast. rewrite !Z.eqb_eq in Hlast.
    destruct (year_last_day n0 Hn0 Hlast) as (Hd & Hleap & Hy).
    apply is_leap_iff in Hleap.
    set (y := n0 / 146097 * 400 + 1 + _) in *.
    unfold _ymd2ord, _days_in_month, _days_before_month.
    rewrite Hleap.
    change (index _DAYS_IN_MONTH 12) with 31.
    change (index _DAYS_BEFORE_MONTH 12) with 334.
    change (12 =? 2) with false. change (2 <? 12) with true.
    cbn [andb]. lia.
  - apply orb_false_iff in Hlast. rewrite !Z.eqb_neq in Hlast.
    destruct Hlast as [H1 H100].
    destruct (year_other_day n0 Hn0 H1 H100) as (Hd & Hr & Hy & Hleap).
    rewrite <- is_leap_iff in Hleap.
    set (y := n0 / 146097 * 400 + 1 + _) in *.
    set (leapyear := (_ =? 3) && _).
    assert (Hl : _is_leap y = leapyear).
    { apply eq_true_iff_eq. rewrite Hleap. unfold leapyear.
      rewrite andb_true_iff, orb_true_iff, negb_true_iff, !Z.eqb_eq, Z.eqb_neq.
      tauto. }
    pose proof (month_day_spec leapyear _ Hr) as Hmd.
    destruct (month_day leapyear _) as [m d].
    unfold _ymd2ord, _days_in_month, _days_before_month.
    rewrite Hl. lia.
Qed.

Lemma check_fields_iff d :
  check_fields d = true <->
  (1 <= year d <= 9999 /\ 1 <= month d <= 12 /\
   1 <= day d <= _days_in_month (year d) (month d) /\
   0 <= hour d <= 23 /\ 0 <= minute d <= 59 /\ 0 <= second d <= 59 /\
   0 <= microsecond d <= 999999).
Proof.
  unfold check_fields, MINYEAR, MAXYEAR.
  rewrite !andb_true_iff, !Z.leb_le. tauto.
Qed.

Lemma days_before_year_next y :
  _days_before_year (y + 1)
  = _days_before_year y + 365 + (if _is_leap y then 1 else 0).
Proof.
  destruct (_is_leap y) eqn:Hl.
  - apply is_leap_iff in Hl. unfold _days_before_year. divlia.
  - assert (Hn : ~ (y mod 4 = 0 /\ (y mod 100 <> 0 \/ y mod 400 = 0))).
    { rewrite <- is_leap_iff, Hl. discriminate. }
    unfold _days_before_year. divlia.
Qed.

Lemma days_before_year_mono y y' :
  y <= y' -> _days_before_year y <= _days_before_year y'.
Proof. unfold _days_before_year. intros H. divlia. Qed.

Lemma month_span y m :
  1 <= m <= 12 ->
  0 <= _days_before_month y m /\
  _days_before_month y m + _days_in_month y m
  <= 365 + (if _is_leap y then 1 else 0) /\
  _days_in_month y m <= 31.
Proof.
  intros Hm. unfold _days_before_month, _days_in_month.
  assert (Hc : m = 1 \/ m = 2 \/ m = 3 \/ m = 4 \/ m = 5 \/ m = 6 \/ m = 7
               \/ m = 8 \/ m = 9 \/ m = 10 \/ m = 11 \/ m = 12) by lia.
  destruct (_is_leap y);
    repeat (destruct Hc as [-> | Hc];
            [vm_compute; repeat split; discriminate |]);
    subst m; vm_compute; repeat split; discriminate.
Qed.

Lemma toordinal_bounds d :
  check_fields d = true -> 1 <= toordinal d <= _MAXORDINAL.
Proof.
  rewrite check_fields_iff. intros (Hy & Hm & Hd & _).
  unfold toordinal, _ymd2ord.
  pose proof (month_span (year d) (month d) Hm) as (H0 & H1 & H2).
  pose proof (days_before_year_next (year d)) as Hnext.
  pose proof (days_before_year_mono 1 (year d) ltac:(lia)) as Hlo.
  pose proof (days_before_year_mono (year d + 1) 10000 ltac:(lia)) as Hhi.
  change (_days_before_year 1) with 0 in Hlo.
  change (_days_before_year 10000) with 3652059 in Hhi.
  unfold _MAXORDINAL. lia.
Qed.

(** The sum [datetime.__add__] computes for [timedelta(minutes=2)]. *)
Lemma delta_plus_two_minutes ord h mi s us :
  0 <= h <= 23 -> 0 <= mi <= 59 -> 0 <= s <= 59 -> 0 <= us <= 999999 ->
  timedelta_add (timedelta ord s us mi h) (timedelta 0 0 0 2 0)
  = mk_timedelta (ord + (h * 3600 + mi * 60 + s + 120) / 86400)
                 ((h * 3600 + mi * 60 + s + 120) mod 86400) us.
Proof.
  intros Hh Hmi Hs Hus.
  unfold timedelta_add, timedelta, normalize.
  cbn [td_days td_seconds td_microseconds].
  f_equal; divlia.
Qed.

Lemma instant_max : instant datetime_max = 315537897599999999.
Proof. reflexivity. Qed.

(** Two minutes later, when that is still a datetime. *)
Lemma datetime_add_two_minutes now :
  check_fields now = true ->
  instant now + 120000000 <= instant datetime_max ->
  exists later,
    datetime_add now (timedelta 0 0 0 2 0) = Some later /\
    check_fields later = true /\
    instant later = instant now + 120000000 /\
    microsecond later = microsecond now.
Proof.
  intros Hc Hmax. rewrite instant_max in Hmax.
  pose proof (toordinal_bounds now Hc) as Hord.
  apply check_fields_iff in Hc.
  destruct Hc as (Hy & Hm & Hd & Hh & Hmi & Hs & Hus).
  unfold datetime_add.
  rewrite delta_plus_two_minutes by assumption.
  cbn [td_days td_seconds td_microseconds].
  unfold instant in Hmax.
  set (T := hour now * 3600 + minute now * 60 + second now + 120) in *.
  set (D := toordinal now + T / 86400).
  assert (HD : 1 <= D <= _MAXORDINAL).
  { unfold D, T, _MAXORDINAL in *. divlia. }
  replace ((0 <? D) && (D <=? _MAXORDINAL)) with true
    by (symmetry; apply andb_true_iff; split;
        [apply Z.ltb_lt | apply Z.leb_le]; lia).
  pose proof (ord2ymd_spec D HD) as Hymd.
  destruct (_ord2ymd D) as [[y m] d].
  destruct Hymd as (Hy' & Hm' & Hd' & Hback).
  eexists. split; [reflexivity |].
  split; [| split; [| reflexivity]].
  - apply check_fields_iff. cbn [year month day hour minute second microsecond].
    repeat split; try lia; divlia.
  - unfold instant, toordinal.
    cbn [year month day hour minute second microsecond].
    rewrite Hback. unfold D, T, toordinal. divlia.
Qed.

Lemma representable_iff now :
  representable now = true
  <-> instant now + 120000000 <= instant datetime_max.
Proof. unfold representable, notice_offset. apply Z.leb_le. Qed.

(** Past [datetime.max]: [OverflowError]. *)
Lemma datetime_add_overflow now :
  check_fields now = true ->
  instant datetime_max < instant now + 120000000 ->
  datetime_add now (timedelta 0 0 0 2 0) = None.
Proof.
  intros Hc Hmax. rewrite instant_max in Hmax.
  pose proof (toordinal_bounds now Hc) as Hord.
  apply check_fields_iff in Hc.
  destruct Hc as (Hy & Hm & Hd & Hh & Hmi & Hs & Hus).
  unfold datetime_add.
  rewrite delta_plus_two_minutes by assumption.
  cbn [td_days td_seconds td_microseconds].
  unfold instant in Hmax.
  set (T := hour now * 3600 + minute now * 60 + second now + 120) in *.
  set (D := toordinal now + T / 86400).
  assert (HD : _MAXORDINAL < D).
  { unfold D, T, _MAXORDINAL in *. divlia. }
  replace (D <=? _MAXORDINAL) with false
    by (symmetry; apply Z.leb_gt; lia).
  rewrite andb_false_r. reflexivity.
Qed.

(** ** Text *)

Lemma append_assoc (a b c : string) :
  ((a ++ b) ++ c)%string = (a ++ (b ++ c))%string.
Proof. induction a as [| x a IH]; simpl; [reflexivity | now rewrite IH]. Qed.

Lemma code_chr n : 0 <= n < 256 -> code (chr n) = n.
Proof.
  intros Hn. unfold code, chr.
  rewrite N_ascii_embedding by lia. lia.
Qed.

Lemma chr_code c : chr (code c) = c.
Proof. unfold code, chr. rewrite N2Z.id. apply ascii_N_embedding. Qed.

Lemma digit_value_digit d : 0 <= d <= 9 -> digit_value (digit d) = Some d.
Proof.
  intros Hd. unfold digit_value, digit.
  rewrite code_chr by lia.
  replace ((48 <=? 48 + d) && (48 + d <=? 57)) with true
    by (symmetry; apply andb_true_iff; split; apply Z.leb_le; lia).
  f_equal. lia.
Qed.

Lemma pow10_succ w : 10 ^ Z.of_nat (S w) = 10 * 10 ^ Z.of_nat w.
Proof. rewrite Nat2Z.inj_succ, Z.pow_succ_r by lia. reflexivity. Qed.

Lemma leading_digit w n :
  0 <= n < 10 ^ Z.of_nat (S w) ->
  0 <= n / 10 ^ Z.of_nat w <= 9 /\
  0 <= n mod 10 ^ Z.of_nat w < 10 ^ Z.of_nat w.
Proof.
  rewrite pow10_succ. intros Hn.
  assert (Hp : 0 < 10 ^ Z.of_nat w) by (apply Z.pow_pos_nonneg; lia).
  split.
  - split; [apply Z.div_pos; lia |].
    assert (n / 10 ^ Z.of_nat w < 10); [| lia].
    apply Z.div_lt_upper_bound; lia.
  - apply Z.mod_pos_bound; lia.
Qed.

(** Reading back what ['%0wd'] printed. *)
Lemma read_digits_fmt w : forall n acc rest,
  0 <= n < 10 ^ Z.of_nat w ->
  read_digits w acc (fmt_0d w n ++ rest)
  = Some (acc * 10 ^ Z.of_nat w + n, rest).
Proof.
  induction w as [| w IH]; intros n acc rest Hn.
  - simpl in *. f_equal. f_equal. lia.
  - destruct (leading_digit w n Hn) as [Hq Hr].
    cbn [fmt_0d read_digits append].
    rewrite digit_value_digit by assumption.
    rewrite IH by assumption.
    rewrite pow10_succ.
    assert (Hp : 0 < 10 ^ Z.of_nat w) by (apply Z.pow_pos_nonneg; lia).
    pose proof (Z.div_mod n (10 ^ Z.of_nat w) ltac:(lia)) as Hdm.
    f_equal. f_equal. nia.
Qed.

Lemma is_ascii_app a b : is_ascii (a ++ b) = is_ascii a && is_ascii b.
Proof.
  induction a as [| c a IH]; simpl; [reflexivity |].
  now rewrite IH, andb_assoc.
Qed.

(** UTF-8 leaves ASCII text as it is. *)
Lemma encode_ascii s : is_ascii s = true -> encode s = s.
Proof.
  induction s as [| c s IH]; simpl; [reflexivity |].
  intros H. apply andb_true_iff in H as [Hc Hs].
  rewrite Hc, IH by assumption. reflexivity.
Qed.

(** ** JSON: [loads] reads back what [dumps] wrote *)

Lemma escape_char_ascii c : is_ascii (Json.escape_char c) = true.
Proof. destruct c as [[] [] [] [] [] [] [] []]; reflexivity. Qed.

Lemma escape_ascii s : is_ascii (Json.escape s) = true.
Proof.
  induction s as [| c s IH]; simpl; [reflexivity |].
  now rewrite is_ascii_app, escape_char_ascii, IH.
Qed.

Lemma scan_escape_char c t :
  scan_string (Json.escape_char c ++ t)
  = match scan_string t with
    | Some (u, tl) => Some (String c u, tl)
    | None => None
    end.
Proof. destruct c as [[] [] [] [] [] [] [] []]; reflexivity. Qed.

Lemma scan_escape s rest :
  scan_string (Json.escape s ++ String dquote rest) = Some (s, rest).
Proof.
  induction s as [| c s IH]; [reflexivity |].
  cbn [Json.escape]. rewrite append_assoc, scan_escape_char, IH.
  reflexivity.
Qed.

(** The text [json.dumps] writes for a dict of one item. *)
Lemma dumps_one k v :
  Json.dumps [(k, v)]
  = String "{" (String dquote (Json.escape k ++ String dquote (String ":"
      (String " " (String dquote (Json.escape v ++ String dquote "}")))))).
Proof.
  unfold Json.dumps, Json.dumps_items, Json.encode_basestring_ascii.
  cbn [append]. rewrite !append_assoc. cbn [append].
  rewrite !append_assoc. reflexivity.
Qed.

Lemma dumps_one_ascii k v : is_ascii (Json.dumps [(k, v)]) = true.
Proof.
  rewrite dumps_one. cbn [is_ascii].
  rewrite is_ascii_app, escape_ascii. cbn [is_ascii].
  rewrite is_ascii_app, escape_ascii. reflexivity.
Qed.

Lemma loads_dumps_one k v :
  loads (encode (Json.dumps [(k, v)])) = Some [(k, v)].
Proof.
  rewrite encode_ascii by apply dumps_one_ascii.
  rewrite dumps_one. unfold loads.
  cbn [String.length read_members].
  change (read_char 123 (String "{" ?s)) with (Some s).
  cbv beta iota.
  change (read_char 125 (String dquote ?s)) with (@None string).
  cbv beta iota.
  change (read_string (String dquote ?s)) with (scan_string s).
  rewrite scan_escape.
  change (read_char 58 (String ":" ?s)) with (Some s).
  cbv beta iota.
  change (read_string (String " " (String dquote ?s))) with (scan_string s).
  rewrite scan_escape.
  reflexivity.
Qed.

(** ** [isoformat]: what it writes, and reading it back *)

(** The text of [d.isoformat() + 'Z'], field by field. *)
Lemma isoformat_Z d :
  (isoformat d ++ "Z")%string
  = (fmt_0d 4 (year d) ++ String "-" (fmt_0d 2 (month d) ++ String "-"
      (fmt_0d 2 (day d) ++ String "T" (fmt_0d 2 (hour d) ++ String ":"
        (fmt_0d 2 (minute d) ++ String ":" (fmt_0d 2 (second d) ++
          (if (microsecond d =? 0)%Z then "Z"
           else String "." (fmt_0d 6 (microsecond d) ++ "Z"))))))))%string.
Proof.
  unfold isoformat, _format_time.
  destruct (microsecond d =? 0);
    repeat (rewrite !append_assoc; cbn [append]); reflexivity.
Qed.

Lemma has_shape_fmt w : forall n pat s,
  0 <= n < 10 ^ Z.of_nat w ->
  has_shape (digits_pattern w ++ pat) (fmt_0d w n ++ s) = has_shape pat s.
Proof.
  induction w as [| w IH]; intros n pat s Hn; [reflexivity |].
  destruct (leading_digit w n Hn) as [Hq Hr].
  cbn [digits_pattern fmt_0d append has_shape].
  change (code "d" =? 100) with true. cbv beta iota.
  rewrite digit_value_digit by assumption.
  rewrite IH by assumption. reflexivity.
Qed.

Section Isoformat.
Variable d : datetime.
Hypothesis Hd : check_fields d = true.

Lemma field_ranges :
  0 <= year d < 10000 /\ 0 <= month d < 100 /\ 0 <= day d < 100 /\
  0 <= hour d < 100 /\ 0 <= minute d < 100 /\ 0 <= second d < 100 /\
  0 <= microsecond d < 1000000.
Proof.
  apply check_fields_iff in Hd.
  destruct Hd as (Hy & Hm & Hday & Hh & Hmi & Hs & Hus).
  pose proof (month_span (year d) (month d) Hm) as (H0 & H1 & H2).
  destruct (_is_leap (year d)); lia.
Qed.

(** The timestamp has the long shape when the microsecond field is not
    zero, the short one when it is. *)
Lemma isoformat_shape :
  has_shape (if microsecond d =? 0 then "dddd-dd-ddTdd:dd:ddZ"
             else "dddd-dd-ddTdd:dd:dd.ddddddZ")
            (isoformat d ++ "Z") = true.
Proof.
  destruct field_ranges as (Hy & Hm & Hday & Hh & Hmi & Hs & Hus).
  rewrite isoformat_Z.
  destruct (microsecond d =? 0).
  - change "dddd-dd-ddTdd:dd:ddZ"
      with (digits_pattern 4 ++ String "-" (digits_pattern 2 ++ String "-"
             (digits_pattern 2 ++ String "T" (digits_pattern 2 ++ String ":"
               (digits_pattern 2 ++ String ":"
                 (digits_pattern 2 ++ "Z"))))))%string.
    repeat (rewrite has_shape_fmt by field_bounds;
            try (cbn [has_shape]; rewrite andb_true_l)).
    reflexivity.
  - change "dddd-dd-ddTdd:dd:dd.ddddddZ"
      with (digits_pattern 4 ++ String "-" (digits_pattern 2 ++ String "-"
             (digits_pattern 2 ++ String "T" (digits_pattern 2 ++ String ":"
               (digits_pattern 2 ++ String ":" (digits_pattern 2 ++ String "."
                 (digits_pattern 6 ++ "Z")))))))%string.
    repeat (rewrite has_shape_fmt by field_bounds;
            try (cbn [has_shape]; rewrite andb_true_l)).
    reflexivity.
Qed.

(** Reading the timestamp gives the datetime back. *)
Lemma read_isoformat : read_notice_time (isoformat d ++ "Z") = Some d.
Proof.
  destruct field_ranges as (Hy & Hm & Hday & Hh & Hmi & Hs & Hus).
  rewrite isoformat_Z. unfold read_notice_time.
  repeat (rewrite read_digits_fmt by field_bounds;
          try match goal with
              | |- context [expect ?n (String ?c ?s)] =>
                  change (expect n (String c s)) with (Some s)
              end;
          cbv beta iota).
  destruct (microsecond d =? 0) eqn:Hz.
  - apply Z.eqb_eq in Hz.
    change (expect 46 "Z") with (@None string). cbv beta iota.
    destruct d; cbn in *; repeat f_equal; lia.
  - change (expect 46 (String "." ?s)) with (Some s). cbv beta iota.
    rewrite read_digits_fmt by field_bounds.
    destruct d; cbn in *; repeat f_equal; lia.
Qed.

End Isoformat.

(** ** [do_GET], case by case *)

Lemma some_inj {A : Type} (a b : A) : Some a = Some b -> a = b.
Proof. congruence. Qed.

(** Unfolding the handler and the library methods it calls. *)
Ltac run_do_GET :=
  cbv [do_GET bind ret raise modify self_path self_request the_world
       datetime_utcnow datetime_plus send_response log_request
       HttpServer.log_message MockIMDSHandler MockIMDS.log_message
       send_response_only send_header end_headers flush_headers
       headers_buffer buffer_item wfile_write socket_write].

(** [do_GET] on any handler state, as one expression. *)
Lemma do_GET_eval r w s :
  do_GET r w s
  = if String.eqb (path r) recognized_path then
      match datetime_add (utcnow w) (timedelta 0 0 0 2 0) with
      | None => (Raise (OverflowError "date value out of range"), s)
      | Some later =>
          if is_simple r then
            socket_write [notice_data later] r w s
          else
            match
              socket_write (_headers_buffer s ++ notice_head w) r w
                (mk_handler (_headers_buffer s ++ notice_head w) (wfile s)
                            (server s) (sys_stderr s) (peer s))
            with
            | (Return tt, s') =>
                socket_write [notice_data later] r w
                  (mk_handler [] (wfile s') (server s') (sys_stderr s')
                              (peer s'))
            | (Raise e, s') => (Raise e, s')
            end
      end
    else if is_simple r then (Return tt, s)
    else
      match
        socket_write (_headers_buffer s ++ not_found_wire w) r w
          (mk_handler (_headers_buffer s ++ not_found_wire w) (wfile s)
                      (server s) (sys_stderr s) (peer s))
      with
      | (Return tt, s') =>
          (Return tt,
           mk_handler [] (wfile s') (server s') (sys_stderr s') (peer s'))
      | (Raise e, s') => (Raise e, s')
      end.
Proof.
  run_do_GET. unfold recognized_path.
  destruct (String.eqb (path r) _);
    [destruct (datetime_add _ _) as [later |] |];
    destruct s as [b f srv err p]; cbn [_headers_buffer wfile server sys_stderr peer];
    destruct (is_simple r); cbn [negb];
    destruct p as [[| k] |];
    cbn [_headers_buffer wfile server sys_stderr peer];
    unfold notice_head, not_found_wire, notice_data;
    rewrite <- ?app_assoc; cbn [app]; reflexivity.
Qed.

(** ** One connection *)

(** What handling one request comes to, in every case: the request is a
    simple one or not, for the recognized path or not, the addition
    raises or not, and the peer takes the writes or is gone. *)
Lemma process_request_eval r w srv err :
  process_request do_GET r w srv err
  = (Return tt,
     if String.eqb (path r) recognized_path then
       match datetime_add (utcnow w) (timedelta 0 0 0 2 0) with
       | None =>
           mk_handler [] [] srv (err ++ [report (r, w)]) (peer_accepts w)
       | Some later =>
           if is_simple r then
             match peer_accepts w with
             | Some O =>
                 mk_handler [] [Broken] srv (err ++ [broken_pipe r]) (Some O)
             | p =>
                 mk_handler [] [notice_data later] srv err (after_writes 1 p)
             end
           else
             match peer_accepts w with
             | Some O =>
                 mk_handler (notice_head w) [Broken] srv
                            (err ++ [broken_pipe r]) (Some O)
             | Some (S O) =>
                 mk_handler [] (notice_head w ++ [Broken]) srv
                            (err ++ [broken_pipe r]) (Some O)
             | p =>
                 mk_handler [] (notice_wire w later) srv err
                            (after_writes 2 p)
             end
       end
     else if is_simple r then mk_handler [] [] srv err (peer_accepts w)
     else
       match peer_accepts w with
       | Some O =>
           mk_handler (not_found_wire w) [Broken] srv
                      (err ++ [broken_pipe r]) (Some O)
       | p => mk_handler [] (not_found_wire w) srv err (after_writes 1 p)
       end).
Proof.
  unfold process_request. rewrite do_GET_eval.
  destruct (String.eqb (path r) recognized_path);
    [destruct (datetime_add _ _) as [later |] |];
    destruct (is_simple r);
    destruct (peer_accepts w) as [[| [| k]] |];
    reflexivity.
Qed.

(** The peer takes [n] writes: it stays, or it takes [n] and some more. *)
Lemma accepts_1 w :
  accepts 1 w = true ->
  peer_accepts w = None \/ exists k, peer_accepts w = Some (S k).
Proof.
  unfold accepts. destruct (peer_accepts w) as [[| k] |]; eauto.
  discriminate.
Qed.

Lemma accepts_2 w :
  accepts 2 w = true ->
  peer_accepts w = None \/ exists k, peer_accepts w = Some (S (S k)).
Proof.
  unfold accepts. destruct (peer_accepts w) as [[| [| k]] |]; eauto;
    discriminate.
Qed.

Lemma process_request_recognized r w srv err later :
  path r = recognized_path ->
  datetime_add (utcnow w) (timedelta 0 0 0 2 0) = Some later ->
  is_simple r = false ->
  accepts 2 w = true ->
  process_request do_GET r w srv err
  = (Return tt,
     mk_handler [] (notice_wire w later) srv err
                (after_writes 2 (peer_accepts w))).
Proof.
  intros Hp Ha Hs Hw. rewrite process_request_eval, Hp, Ha, Hs.
  unfold recognized_path. rewrite String.eqb_refl.
  destruct (accepts_2 w Hw) as [-> | [k ->]]; reflexivity.
Qed.

Lemma process_request_overflow r w srv err :
  path r = recognized_path ->
  datetime_add (utcnow w) (timedelta 0 0 0 2 0) = None ->
  process_request do_GET r w srv err
  = (Return tt,
     mk_handler [] [] srv
       (err ++ [HandlerErrorReport (client_address r)
                  (OverflowError "date value out of range")])
       (peer_accepts w)).
Proof.
  intros Hp Ha. rewrite process_request_eval, Hp, Ha.
  unfold recognized_path. rewrite String.eqb_refl. reflexivity.
Qed.

Lemma process_request_other r w srv err :
  path r <> recognized_path ->
  is_simple r = false ->
  accepts 1 w = true ->
  process_request do_GET r w srv err
  = (Return tt,
     mk_handler [] (not_found_wire w) srv err
                (after_writes 1 (peer_accepts w))).
Proof.
  intros Hp Hs Hw. apply String.eqb_neq in Hp.
  rewrite process_request_eval, Hp, Hs.
  destruct (accepts_1 w Hw) as [-> | [k ->]]; reflexivity.
Qed.

(** Whatever the request, the clock and the peer, [do_GET] returns, or
    raises [OverflowError] or [BrokenPipeError], and leaves the server
    object and stderr alone. *)
Lemma do_GET_frame r w s :
  (fst (do_GET r w s) = Return tt
   \/ fst (do_GET r w s) = Raise (OverflowError "date value out of range")
   \/ fst (do_GET r w s) = Raise (OSError EPIPE))
  /\ server (snd (do_GET r w s)) = server s
  /\ sys_stderr (snd (do_GET r w s)) = sys_stderr s.
Proof.
  rewrite do_GET_eval. unfold socket_write.
  cbn [_headers_buffer wfile server sys_stderr peer].
  destruct (String.eqb (path r) recognized_path);
    [destruct (datetime_add _ _) as [later |] |];
    destruct (is_simple r);
    destruct (peer s) as [[| [| k]] |];
    cbn [fst snd _headers_buffer wfile server sys_stderr peer]; auto.
Qed.

(** A request never stops the loop and never touches the server object. *)
Lemma process_request_frame r w srv err :
  fst (process_request do_GET r w srv err) = Return tt
  /\ server (snd (process_request do_GET r w srv err)) = srv.
Proof.
  rewrite process_request_eval. cbn [fst snd]. split; [reflexivity |].
  destruct (String.eqb (path r) recognized_path);
    [destruct (datetime_add _ _) as [later |] |];
    destruct (is_simple r);
    destruct (peer_accepts w) as [[| [| k]] |]; reflexivity.
Qed.

(** What is sent on a connection does not depend on the state of the
    server nor on what stderr holds. *)
Lemma wire_of_independent r w srv err srv' err' :
  wire_of r w srv err = wire_of r w srv' err'.
Proof.
  unfold wire_of. rewrite !process_request_eval. cbn [snd].
  destruct (String.eqb (path r) recognized_path);
    [destruct (datetime_add _ _) as [later |] |];
    destruct (is_simple r);
    destruct (peer_accepts w) as [[| [| k]] |]; reflexivity.
Qed.

(** A request whose handling completes leaves stderr as it was. *)
Lemma process_request_quiet r w srv err :
  completes (Connection r w) = true ->
  sys_stderr (snd (process_request do_GET r w srv err)) = err.
Proof.
  unfold completes, writes_of. intros Hc.
  apply andb_true_iff in Hc as [Hc Hw].
  rewrite process_request_eval. cbn [snd].
  destruct (String.eqb (path r) recognized_path) eqn:Hp.
  - cbn [negb orb] in Hc. apply andb_true_iff in Hc as [Hv Hr].
    apply representable_iff in Hr.
    destruct (datetime_add_two_minutes (utcnow w) Hv Hr) as (later & -> & _).
    unfold accepts in Hw.
    destruct (is_simple r);
      destruct (peer_accepts w) as [[| [| k]] |];
      try reflexivity; discriminate Hw.
  - unfold accepts in Hw.
    destruct (is_simple r);
      destruct (peer_accepts w) as [[| [| k]] |];
      try reflexivity; discriminate Hw.
Qed.

(** The loop takes one request and goes on with the rest. *)
Lemma serve_loop_step r w rest srv err conns :
  shutdown_request srv = false ->
  serve_loop do_GET (Connection r w :: rest) srv err conns
  = serve_loop do_GET rest srv
      (sys_stderr (snd (process_request do_GET r w srv err)))
      (conns ++ [wire_of r w srv err]).
Proof.
  intros Hs. cbn [serve_loop]. rewrite Hs. unfold wire_of.
  destruct (process_request_frame r w srv err) as [Hret Hsrv].
  destruct (process_request do_GET r w srv err) as [[[] | e] h];
    cbn [fst snd] in *; [| discriminate].
  rewrite Hsrv. reflexivity.
Qed.

(** ** What the client reads *)

Lemma append_nil_r (s : string) : (s ++ "")%string = s.
Proof. induction s as [| c s IH]; simpl; [reflexivity | now rewrite IH]. Qed.

Lemma client_view_notice w later :
  client_view (notice_wire w later)
  = Some (mk_response 200 "OK"
            [("Server", version_string w); ("Date", date_time_string w);
             ("Content-type", "application/json")]
            (encode (Json.dumps
                       [("noticeTime", (isoformat later ++ "Z")%string)]))).
Proof.
  unfold notice_wire, client_view. cbn [read_headers read_body].
  rewrite append_nil_r. reflexivity.
Qed.

Lemma client_view_not_found w :
  client_view (not_found_wire w)
  = Some (mk_response 404 "Not Found"
            [("Server", version_string w); ("Date", date_time_string w)] "").
Proof. reflexivity. Qed.

Lemma content_type_of_notice server_value date_value :
  header_values "Content-Type"
    [("Server", server_value); ("Date", date_value);
     ("Content-type", "application/json")]
  = ["application/json"].
Proof. reflexivity. Qed.

(** A response is read off a connection only when the request had a
    protocol version and the peer took every write: it is then the
    not-found answer or the notice for two minutes later. *)
Lemma response_cases r w srv err resp :
  response_to r w srv err = Some resp ->
  is_simple r = false /\
  ((path r <> recognized_path /\
    accepts 1 w = true /\
    wire_of r w srv err = not_found_wire w /\
    resp = mk_response 404 "Not Found"
             [("Server", version_string w); ("Date", date_time_string w)] "")
   \/ (path r = recognized_path /\
       accepts 2 w = true /\
       exists later,
         datetime_add (utcnow w) (timedelta 0 0 0 2 0) = Some later /\
         wire_of r w srv err = notice_wire w later /\
         resp = mk_response 200 "OK"
                  [("Server", version_string w); ("Date", date_time_string w);
                   ("Content-type", "application/json")]
                  (encode (Json.dumps
                     [("noticeTime", (isoformat later ++ "Z")%string)])))).
Proof.
  unfold response_to, wire_of, accepts.
  rewrite process_request_eval. cbn [snd].
  destruct (String.eqb_spec (path r) recognized_path) as [Hp | Hp];
    [destruct (datetime_add _ _) as [later |] |];
    destruct (is_simple r);
    destruct (peer_accepts w) as [[| [| k]] |];
    cbn [wfile]; try discriminate;
    rewrite ?client_view_notice, ?client_view_not_found;
    intros Hresp; apply some_inj in Hresp; subst resp;
    (split; [reflexivity |]);
    solve [ left; repeat (split; [assumption || reflexivity |]); reflexivity
          | right; split; [assumption |]; split; [reflexivity |];
            exists later; repeat (split; [reflexivity |]); reflexivity ].
Qed.

(** The datetime behind a response to a request for the recognized
    path. *)
Lemma response_datetime r w srv err resp :
  path r = recognized_path ->
  check_fields (utcnow w) = true ->
  response_to r w srv err = Some resp ->
  exists later,
    datetime_add (utcnow w) (timedelta 0 0 0 2 0) = Some later /\
    check_fields later = true /\
    resp = mk_response 200 "OK"
             [("Server", version_string w); ("Date", date_time_string w);
              ("Content-type", "application/json")]
             (encode (Json.dumps
                        [("noticeTime", (isoformat later ++ "Z")%string)])) /\
    notice_time_of resp = Some (isoformat later ++ "Z")%string.
Proof.
  intros Hp Hv Hresp.
  destruct (response_cases r w srv err resp Hresp)
    as (_ & [(Hp' & _) | (_ & _ & later & Ha & _ & Heq)]);
    [contradiction |].
  exists later. split; [assumption |].
  assert (Hc : check_fields later = true).
  { destruct (Z_le_gt_dec (instant (utcnow w) + 120000000)
                          (instant datetime_max)) as [Hle | Hgt].
    - destruct (datetime_add_two_minutes (utcnow w) Hv Hle)
        as (later' & Ha' & Hc' & _).
      congruence.
    - rewrite datetime_add_overflow in Ha by (assumption || lia).
      discriminate Ha. }
  split; [assumption |]. split; [assumption |].
  subst resp. unfold notice_time_of. cbn [body].
  rewrite loads_dumps_one. reflexivity.
Qed.

(** Every response to a request for the recognized path is the notice for
    the datetime two minutes after the clock reading. *)
Lemma response_is_notice r w srv err resp :
  path r = recognized_path ->
  check_fields (utcnow w) = true ->
  response_to r w srv err = Some resp ->
  exists later,
    check_fields later = true /\
    instant later = instant (utcnow w) + notice_offset /\
    microsecond later = microsecond (utcnow w) /\
    wire_of r w srv err = notice_wire w later /\
    notice_time_of resp = Some (isoformat later ++ "Z")%string.
Proof.
  intros Hp Hv Hresp.
  destruct (response_datetime r w srv err resp Hp Hv Hresp)
    as (later & Ha & Hc & _ & Hs).
  destruct (response_cases r w srv err resp Hresp)
    as (_ & [(Hp' & _) | (_ & _ & later' & Ha' & Hwire & _)]);
    [contradiction |].
  assert (later' = later) by congruence. subst later'.
  exists later. split; [assumption |].
  destruct (Z_le_gt_dec (instant (utcnow w) + 120000000)
                        (instant datetime_max)) as [Hle | Hgt].
  - destruct (datetime_add_two_minutes (utcnow w) Hv Hle)
      as (later' & Ha'' & _ & Hi & Hus).
    assert (later' = later) by congruence. subst later'.
    unfold notice_offset. auto.
  - rewrite datetime_add_overflow in Ha by (assumption || lia).
    discriminate Ha.
Qed.

(** A request for the recognized path with a protocol version, at a
    clock reading with two minutes to spare, from a peer that takes the
    two writes, is answered by the notice for two minutes later. *)
Lemma answered r w :
  path r = recognized_path ->
  check_fields (utcnow w) = true ->
  representable (utcnow w) = true ->
  http_1x r = true ->
  accepts 2 w = true ->
  exists later resp,
    check_fields later = true /\
    instant later = instant (utcnow w) + notice_offset /\
    (forall srv err,
       process_request do_GET r w srv err
       = (Return tt,
          mk_handler [] (notice_wire w later) srv err
                     (after_writes 2 (peer_accepts w)))) /\
    (forall srv err, response_to r w srv err = Some resp) /\
    notice_time_of resp = Some (isoformat later ++ "Z")%string /\
    read_notice_time (isoformat later ++ "Z") = Some later.
Proof.
  intros Hp Hv Hr Hx Hw. apply representable_iff in Hr.
  unfold http_1x in Hx. apply negb_true_iff in Hx.
  destruct (datetime_add_two_minutes (utcnow w) Hv Hr)
    as (later & Ha & Hc & Hi & _).
  exists later. eexists.
  split; [assumption |]. split; [assumption |].
  split; [intros; now apply process_request_recognized |].
  split.
  - intros srv err. unfold response_to, wire_of.
    rewrite (process_request_recognized r w _ _ later Hp Ha Hx Hw).
    cbn [snd wfile]. apply client_view_notice.
  - split; [| apply read_isoformat; assumption].
    unfold notice_time_of. cbn [body]. rewrite loads_dumps_one. reflexivity.
Qed.

(** ** The endpoint's responses *)

(** C1, counterexample.  Two GET requests for the recognized path that
    do not get the 200 response.  At 9999-12-31T23:58:00,
    [utcnow() + timedelta(minutes=2)] is past [datetime.max]: the
    addition raises [OverflowError] before anything is sent and the
    connection is closed empty.  And a request line without a protocol
    version ([GET /latest/meta-data/rebalance-recommendation]) makes a
    simple request, for which the library sends neither status line nor
    headers: the connection carries the body alone. *)
Lemma recognized_path_without_200 :
  (path (get recognized_path) = recognized_path /\
   check_fields (utcnow end_of_calendar) = true /\
   do_GET (get recognized_path) end_of_calendar
          (mk_handler [] [] a_server [] None)
   = (Raise (OverflowError "date value out of range"),
      mk_handler [] [] a_server [] None) /\
   wire_of (get recognized_path) end_of_calendar a_server [] = [] /\
   response_to (get recognized_path) end_of_calendar a_server [] = None) /\
  (path (get_simple recognized_path) = recognized_path /\
   wire_of (get_simple recognized_path) new_year_2024 a_server []
   = [Data (notice_body "2024-01-01T00:02:00Z")] /\
   response_to (get_simple recognized_path) new_year_2024 a_server [] = None).
Proof. vm_compute. repeat split. Qed.

(** C1, as amended.  For every GET request whose request line carries a
    protocol version (HTTP/1.0 or 1.1) and whose path is exactly the
    recognized one, handled at a clock reading for which two minutes
    later is still a datetime (9999-12-31T23:57:59.999999 at the latest)
    and whose client takes the two writes of the response, the response
    has status 200, one Content-Type header (whatever the case of its
    name) equal to application/json, and a body that is a JSON object
    with exactly one key, noticeTime, whose value is a string.  At a
    later clock reading the addition raises [OverflowError] before
    anything is sent: the connection carries nothing. *)
Theorem rebalance_recommendation_response r w srv err :
  path r = recognized_path ->
  check_fields (utcnow w) = true ->
  (representable (utcnow w) = true ->
   http_1x r = true ->
   accepts 2 w = true ->
   exists resp s,
     response_to r w srv err = Some resp /\
     status_code resp = 200 /\
     header_values "Content-Type" (response_headers resp)
     = ["application/json"] /\
     loads (body resp) = Some [("noticeTime", s)]) /\
  (representable (utcnow w) = false ->
   forall s,
     do_GET r w s = (Raise (OverflowError "date value out of range"), s) /\
     wire_of r w srv err = []).
Proof.
  intros Hp Hv. split.
  - intros Hr Hx Hw. apply representable_iff in Hr.
    unfold http_1x in Hx. apply negb_true_iff in Hx.
    destruct (datetime_add_two_minutes (utcnow w) Hv Hr) as (later & Ha & _).
    exists (mk_response 200 "OK"
              [("Server", version_string w); ("Date", date_time_string w);
               ("Content-type", "application/json")]
              (encode (Json.dumps
                         [("noticeTime", (isoformat later ++ "Z")%string)]))).
    exists (isoformat later ++ "Z")%string.
    unfold response_to, wire_of.
    rewrite (process_request_recognized r w srv err later Hp Ha Hx Hw).
    cbn [snd wfile]. rewrite client_view_notice.
    cbn [status_code response_headers body].
    split; [reflexivity |]. split; [reflexivity |].
    split; [apply content_type_of_notice | apply loads_dumps_one].
  - intros Hr.
    assert (Ha : datetime_add (utcnow w) (timedelta 0 0 0 2 0) = None).
    { apply datetime_add_overflow; [assumption |].
      destruct (Z_le_gt_dec (instant (utcnow w) + 120000000)
                            (instant datetime_max)) as [Hle | Hgt]; [| lia].
      apply representable_iff in Hle. congruence. }
    intros s. split.
    + rewrite do_GET_eval, Hp, Ha. unfold recognized_path.
      rewrite String.eqb_refl. reflexivity.
    + unfold wire_of. rewrite (process_request_overflow r w srv err Hp Ha).
      reflexivity.
Qed.

Lemma rebalance_recommendation_response_witness :
  (path (get recognized_path) = recognized_path /\
   check_fields (utcnow new_year_2024) = true /\
   representable (utcnow new_year_2024) = true /\
   http_1x (get recognized_path) = true /\
   accepts 2 new_year_2024 = true) /\
  exists resp s,
    response_to (get recognized_path) new_year_2024 a_server [] = Some resp /\
    status_code resp = 200 /\
    header_values "Content-Type" (response_headers resp)
    = ["application/json"] /\
    loads (body resp) = Some [("noticeTime", s)].
Proof.
  split; [repeat split |].
  exact (proj1 (rebalance_recommendation_response (get recognized_path)
                  new_year_2024 a_server [] eq_refl eq_refl)
               eq_refl eq_refl eq_refl).
Defined.



(** C3, counterexample.  Three requests whose target is not the
    recognized path and that do not get the 404 response.  The library
    reduces a leading run of slashes to one before [do_GET] reads
    [self.path], so the target with two leading slashes is routed to the
    recognized path and gets the 200 response.  A request line without
    a protocol version makes a simple request, which gets no status
    line: for [/foo] the connection carries nothing at all.  And when
    the client has gone, the write of the header block raises
    [BrokenPipeError], which is reported on stderr. *)
Lemma unrouted_target_without_404 :
  (target (get "//latest/meta-data/rebalance-recommendation")
   <> recognized_path /\
   option_map status_code
     (response_to (get "//latest/meta-data/rebalance-recommendation")
                  new_year_2024 a_server [])
   = Some 200) /\
  (target (get_simple "/foo") <> recognized_path /\
   wire_of (get_simple "/foo") new_year_2024 a_server [] = []) /\
  (target (get "/foo") <> recognized_path /\
   response_to (get "/foo") (peer_gone_after 0 new_year_2024) a_server []
   = None /\
   sys_stderr (snd (process_request do_GET (get "/foo")
                      (peer_gone_after 0 new_year_2024) a_server []))
   = [broken_pipe (get "/foo")]).
Proof.
  split; [| split]; (split; [intros H; discriminate H | vm_compute; auto]).
Qed.

(** C3, as amended.  For every GET request whose request line carries a
    protocol version and whose path, that is the request target with a
    leading run of slashes reduced to one, as the library sets
    [self.path], is any string other than the recognized one (the
    comparison is string equality: another case or a trailing slash is
    another path), and whose client takes the write of the response, the
    response has status 404 and an empty body; [do_GET] returns without
    raising, nothing is written to stderr, and the serving loop goes on
    with the next event. *)
Theorem other_path_not_found r w srv err :
  path r <> recognized_path ->
  http_1x r = true ->
  accepts 1 w = true ->
  (exists resp,
     response_to r w srv err = Some resp /\
     status_code resp = 404 /\ body resp = "") /\
  (fst (do_GET r w (mk_handler [] [] srv err (peer_accepts w))) = Return tt /\
   sys_stderr (snd (process_request do_GET r w srv err)) = err) /\
  (forall rest conns,
     shutdown_request srv = false ->
     serve_loop do_GET (Connection r w :: rest) srv err conns
     = serve_loop do_GET rest srv err (conns ++ [not_found_wire w])).
Proof.
  intros Hp Hx Hw. unfold http_1x in Hx. apply negb_true_iff in Hx.
  pose proof (process_request_other r w srv err Hp Hx Hw) as Heq.
  split; [| split].
  - unfold response_to, wire_of. rewrite Heq. cbn [snd wfile].
    rewrite client_view_not_found. eexists. repeat split.
  - split; [| rewrite Heq; reflexivity].
    apply String.eqb_neq in Hp.
    rewrite do_GET_eval, Hp, Hx. unfold socket_write. cbn [peer].
    destruct (accepts_1 w Hw) as [-> | [k ->]]; reflexivity.
  - intros rest conns Hs. rewrite serve_loop_step by assumption.
    unfold wire_of. rewrite Heq. reflexivity.
Qed.

Lemma other_path_not_found_witness :
  (path (get (recognized_path ++ "/")) <> recognized_path /\
   http_1x (get (recognized_path ++ "/")) = true /\
   accepts 1 new_year_2024 = true) /\
  exists resp,
    response_to (get (recognized_path ++ "/")) new_year_2024 a_server []
    = Some resp /\
    status_code resp = 404 /\ body resp = "".
Proof.
  assert (H : path (get (recognized_path ++ "/")) <> recognized_path)
    by (apply String.eqb_neq; reflexivity).
  split; [split; [exact H | split; reflexivity] |].
  exact (proj1 (other_path_not_found (get (recognized_path ++ "/"))
                  new_year_2024 a_server [] H eq_refl eq_refl)).
Defined.

(** The paths the specification names, and near misses of the recognized
    one (another case, a trailing slash, no leading slash), all get the
    404 response. *)
Lemma unrouted_paths :
  Forall (fun p =>
            response_to (get p) new_year_2024 a_server []
            = Some (mk_response 404 "Not Found"
                      [("Server", version_string new_year_2024);
                       ("Date", date_time_string new_year_2024)] ""))
         [ "/"; "/latest/meta-data/"; "/foo"; "/nonexistent";
           "/latest/meta-data/rebalance-recommendation/";
           "/latest/meta-data/Rebalance-Recommendation";
           "latest/meta-data/rebalance-recommendation" ].
Proof. repeat constructor. Qed.

(** C4, counterexample.  At 2024-01-01T00:00:00.000000 the noticeTime is
    2024-01-01T00:02:00Z: [isoformat] leaves the fraction out when the
    microsecond field is zero, so the text has no six-digit field. *)
Lemma notice_time_without_fraction :
  path (get recognized_path) = recognized_path /\
  option_map notice_time_of
    (response_to (get recognized_path) new_year_2024 a_server [])
  = Some (Some "2024-01-01T00:02:00Z") /\
  has_shape "dddd-dd-ddTdd:dd:dd.ddddddZ" "2024-01-01T00:02:00Z" = false.
Proof. vm_compute. repeat split. Qed.

(** C4, as amended.  For every request for the recognized path, the
    noticeTime of the response has the format YYYY-MM-DDTHH:MM:SS.ffffffZ
    when the microsecond field of the clock reading is not zero, and the
    format YYYY-MM-DDTHH:MM:SSZ, without a fraction, when it is zero; the
    final Z is always there.  There is such a response whenever two
    minutes later is still a datetime, the request line carries a
    protocol version and the client takes the two writes of the
    response. *)
Theorem notice_time_format r w srv err :
  path r = recognized_path ->
  check_fields (utcnow w) = true ->
  (representable (utcnow w) = true ->
   http_1x r = true ->
   accepts 2 w = true ->
   exists resp, response_to r w srv err = Some resp) /\
  (forall resp,
     response_to r w srv err = Some resp ->
     exists s,
       notice_time_of resp = Some s /\
       has_shape (if microsecond (utcnow w) =? 0
                  then "dddd-dd-ddTdd:dd:ddZ"
                  else "dddd-dd-ddTdd:dd:dd.ddddddZ") s = true).
Proof.
  intros Hp Hv. split.
  - intros Hr Hx Hw.
    destruct (answered r w Hp Hv Hr Hx Hw)
      as (_ & resp & _ & _ & _ & Hresp & _).
    exists resp. apply Hresp.
  - intros resp Hresp.
    destruct (response_is_notice r w srv err resp Hp Hv Hresp)
      as (later & Hc & _ & Hus & _ & Hs).
    exists (isoformat later ++ "Z")%string.
    split; [assumption |].
    rewrite <- Hus. apply isoformat_shape. assumption.
Qed.

Lemma notice_time_format_witness :
  (path (get recognized_path) = recognized_path /\
   check_fields (utcnow new_year_eve) = true) /\
  exists resp s,
    response_to (get recognized_path) new_year_eve a_server [] = Some resp /\
    notice_time_of resp = Some s /\
    has_shape (if microsecond (utcnow new_year_eve) =? 0
               then "dddd-dd-ddTdd:dd:ddZ"
               else "dddd-dd-ddTdd:dd:dd.ddddddZ") s = true.
Proof.
  split; [split; reflexivity |].
  destruct (notice_time_format (get recognized_path) new_year_eve
              a_server [] eq_refl eq_refl) as [Hex Hall].
  destruct (Hex eq_refl eq_refl eq_refl) as [resp Hresp].
  destruct (Hall resp Hresp) as (s & H).
  exists resp, s. split; [exact Hresp | exact H].
Defined.

(** C5, counterexample.  A request line without a protocol version,
    whose target is the recognized path followed by [?x=1], gets no 404
    response: for a simple request the library sends neither status line
    nor headers, and the connection carries nothing. *)
Lemma simple_request_with_query_gets_nothing :
  target (get_simple (recognized_path ++ "?x=1"))
  = (recognized_path ++ "?" ++ "x=1")%string /\
  wire_of (get_simple (recognized_path ++ "?x=1")) new_year_2024 a_server []
  = [] /\
  response_to (get_simple (recognized_path ++ "?x=1")) new_year_2024
              a_server [] = None.
Proof. vm_compute. repeat split. Qed.

(** C5, as amended.  A GET whose target is the recognized path followed
    by [?] and a query string (empty or not, [?x=1] for one) is never
    routed to the recognized path: [self.path] is the whole request
    target, and it is compared as it is.  When the request line carries
    a protocol version and the client takes the write of the response,
    it gets the 404 response with an empty body; in no case does it get
    the 200 JSON response. *)
Theorem query_string_not_found q r w srv err :
  target r = (recognized_path ++ "?" ++ q)%string ->
  path r <> recognized_path /\
  (http_1x r = true ->
   accepts 1 w = true ->
   response_to r w srv err
   = Some (mk_response 404 "Not Found"
             [("Server", version_string w); ("Date", date_time_string w)] ""))
  /\
  (forall resp,
     response_to r w srv err = Some resp ->
     status_code resp = 404 /\ body resp = "").
Proof.
  intros Hq.
  assert (Hp : path r <> recognized_path).
  { unfold path. rewrite Hq. apply String.eqb_neq. reflexivity. }
  split; [exact Hp |]. split.
  - intros Hx Hw. unfold http_1x in Hx. apply negb_true_iff in Hx.
    unfold response_to, wire_of.
    rewrite (process_request_other r w srv err Hp Hx Hw). reflexivity.
  - intros resp Hresp.
    destruct (response_cases r w srv err resp Hresp)
      as (_ & [(_ & _ & _ & ->) | (Hp' & _)]); [| contradiction].
    split; reflexivity.
Qed.

Lemma query_string_not_found_witness :
  target (get (recognized_path ++ "?x=1"))
  = (recognized_path ++ "?" ++ "x=1")%string /\
  response_to (get (recognized_path ++ "?x=1")) new_year_2024 a_server []
  = Some (mk_response 404 "Not Found"
            [("Server", version_string new_year_2024);
             ("Date", date_time_string new_year_2024)] "").
Proof.
  split; [reflexivity |].
  exact (proj1 (proj2 (query_string_not_found "x=1"
                         (get (recognized_path ++ "?x=1")) new_year_2024
                         a_server [] eq_refl))
               eq_refl eq_refl).
Defined.

(** ** The serving loop *)

Lemma serve_loop_requests l : forall rest srv err conns,
  shutdown_request srv = false ->
  serve_loop do_GET (requests l ++ rest) srv err conns
  = serve_loop do_GET rest srv (fst (served l srv err conns))
                               (snd (served l srv err conns)).
Proof.
  induction l as [| [r w] l IH]; intros rest srv err conns Hs; [reflexivity |].
  cbn [requests map app fst snd served].
  rewrite serve_loop_step by assumption.
  apply (IH rest srv _ _ Hs).
Qed.

Lemma served_length l : forall srv err conns,
  List.length (snd (served l srv err conns))
  = (List.length conns + List.length l)%nat.
Proof.
  induction l as [| [r w] l IH]; intros srv err conns;
    cbn [served List.length snd].
  - lia.
  - rewrite IH, length_app. cbn [List.length]. lia.
Qed.

(** As long as every event completes, the loop writes nothing to stderr,
    and it ends, if it does, by returning or by the interrupt. *)
Lemma serve_loop_quiet events : forall srv err conns,
  forallb completes events = true ->
  exists o srv' conns',
    serve_loop do_GET events srv err conns = (o, srv', err, conns') /\
    (o = None \/ o = Some (Return tt) \/ o = Some (Raise KeyboardInterrupt)).
Proof.
  induction events as [| e events IH]; intros srv err conns Hall.
  - cbn [serve_loop]. destruct (shutdown_request srv); eauto 7.
  - cbn [forallb] in Hall. apply andb_true_iff in Hall as [He Hall].
    destruct (shutdown_request srv) eqn:Hs.
    + cbn [serve_loop]. rewrite Hs. eauto 7.
    + destruct e as [r w |].
      * rewrite serve_loop_step by assumption.
        rewrite (process_request_quiet r w srv err He).
        apply IH. assumption.
      * cbn [serve_loop]. rewrite Hs. eauto 7.
Qed.

(** C6, counterexample.  Two successive requests for the recognized path
    handled at the same clock reading (the readings are non-decreasing)
    carry the same noticeTime, not two different ones. *)
Lemma same_reading_same_notice_time :
  instant (utcnow new_year_2024) <= instant (utcnow new_year_2024) /\
  notice_times
    (snd (main (fun _ => BindOk)
            [Connection (get recognized_path) new_year_2024;
             Connection (get recognized_path) new_year_2024]))
  = [Some "2024-01-01T00:02:00Z"; Some "2024-01-01T00:02:00Z"].
Proof. vm_compute. split; [discriminate | reflexivity]. Qed.

(** C6, as amended.  Handling a request changes nothing that a later
    request could see: [do_GET] leaves the server object as it was, and
    what is sent on a connection does not depend on the server state nor
    on what was handled before.  For two successive requests for the
    recognized path, with a protocol version and clients that take the
    writes, handled at clock readings [t1 <= t2], each response carries
    its own reading plus two minutes, so the two noticeTime instants are
    in the same order, [n1 <= n2]; they are different, and so are the
    two texts, whenever the readings are different. *)
Theorem successive_notice_times r1 w1 r2 w2 srv err conns rest :
  path r1 = recognized_path -> path r2 = recognized_path ->
  check_fields (utcnow w1) = true -> check_fields (utcnow w2) = true ->
  representable (utcnow w2) = true ->
  instant (utcnow w1) <= instant (utcnow w2) ->
  shutdown_request srv = false ->
  (forall r w s, server (snd (do_GET r w s)) = server s) /\
  (forall r w srv1 err1 srv2 err2,
     wire_of r w srv1 err1 = wire_of r w srv2 err2) /\
  (http_1x r1 = true -> http_1x r2 = true ->
   accepts 2 w1 = true -> accepts 2 w2 = true ->
   serve_loop do_GET (Connection r1 w1 :: Connection r2 w2 :: rest)
              srv err conns
   = serve_loop do_GET rest srv err
       ((conns ++ [wire_of r1 w1 srv err]) ++ [wire_of r2 w2 srv err]) /\
   exists resp1 resp2 s1 s2 t1 t2,
     response_to r1 w1 srv err = Some resp1 /\
     response_to r2 w2 srv err = Some resp2 /\
     notice_time_of resp1 = Some s1 /\ notice_time_of resp2 = Some s2 /\
     read_notice_time s1 = Some t1 /\ read_notice_time s2 = Some t2 /\
     instant t1 = instant (utcnow w1) + notice_offset /\
     instant t2 = instant (utcnow w2) + notice_offset /\
     instant t1 <= instant t2 /\
     (instant (utcnow w1) < instant (utcnow w2) ->
      s1 <> s2 /\ instant t1 < instant t2)).
Proof.
  intros Hp1 Hp2 Hv1 Hv2 Hr2 Hle Hs.
  split; [intros r w s; apply do_GET_frame |].
  split; [intros; apply wire_of_independent |].
  intros Hx1 Hx2 Hw1 Hw2.
  assert (Hr1 : representable (utcnow w1) = true).
  { apply representable_iff. apply representable_iff in Hr2. lia. }
  destruct (answered r1 w1 Hp1 Hv1 Hr1 Hx1 Hw1)
    as (t1 & resp1 & Hc1 & Hi1 & Hpr1 & Hresp1 & Hn1 & Hread1).
  destruct (answered r2 w2 Hp2 Hv2 Hr2 Hx2 Hw2)
    as (t2 & resp2 & Hc2 & Hi2 & Hpr2 & Hresp2 & Hn2 & Hread2).
  split.
  - rewrite serve_loop_step by assumption.
    rewrite Hpr1. cbn [snd sys_stderr].
    rewrite serve_loop_step by assumption.
    rewrite Hpr2. cbn [snd sys_stderr]. reflexivity.
  - exists resp1, resp2, (isoformat t1 ++ "Z")%string,
           (isoformat t2 ++ "Z")%string, t1, t2.
    repeat (split; [solve [auto] |]).
    split; [lia |].
    intros Hlt. split; [| lia].
    intros Heq. rewrite Heq in Hread1. rewrite Hread1 in Hread2.
    apply some_inj in Hread2. subst t2. lia.
Qed.

Lemma successive_notice_times_witness :
  (path (get recognized_path) = recognized_path /\
   check_fields (utcnow new_year_eve) = true /\
   check_fields (utcnow new_year_2024) = true /\
   representable (utcnow new_year_2024) = true /\
   instant (utcnow new_year_eve) <= instant (utcnow new_year_2024) /\
   shutdown_request a_server = false) /\
  exists resp1 resp2 s1 s2 t1 t2,
    response_to (get recognized_path) new_year_eve a_server [] = Some resp1 /\
    response_to (get recognized_path) new_year_2024 a_server [] = Some resp2 /\
    notice_time_of resp1 = Some s1 /\ notice_time_of resp2 = Some s2 /\
    read_notice_time s1 = Some t1 /\ read_notice_time s2 = Some t2 /\
    instant t1 = instant (utcnow new_year_eve) + notice_offset /\
    instant t2 = instant (utcnow new_year_2024) + notice_offset /\
    instant t1 <= instant t2 /\
    (instant (utcnow new_year_eve) < instant (utcnow new_year_2024) ->
     s1 <> s2 /\ instant t1 < instant t2).
Proof.
  assert (Hle : instant (utcnow new_year_eve)
                <= instant (utcnow new_year_2024))
    by (vm_compute; discriminate).
  split; [repeat split; exact Hle |].
  exact (proj2 (proj2 (proj2
    (successive_notice_times (get recognized_path) new_year_eve
       (get recognized_path) new_year_2024 a_server [] [] []
       eq_refl eq_refl eq_refl eq_refl eq_refl Hle eq_refl))
    eq_refl eq_refl eq_refl eq_refl)).
Defined.

(** ** The process *)

(** The main block once the socket is bound. *)
Lemma main_bound events :
  main (fun _ => BindOk) events
  = match serve_forever do_GET events a_server [] [] with
    | (None, srv, err, conns) =>
        (Serving, mk_process startup_lines err 1 (Some srv) conns)
    | (Some (Return tt), srv, err, conns) =>
        (Exited 0, mk_process startup_lines err 1 (Some srv) conns)
    | (Some (Raise KeyboardInterrupt), srv, err, conns) =>
        match shutdown srv with
        | Some srv' =>
            (Exited 0, mk_process startup_lines err 1 (Some srv') conns)
        | None => (Deadlocked, mk_process startup_lines err 1 (Some srv) conns)
        end
    | (Some (Raise e), srv, err, conns) =>
        (Exited 1,
         mk_process startup_lines (err ++ [Traceback e]) 1 (Some srv) conns)
    end.
Proof. reflexivity. Qed.

Lemma serve_forever_unfold events :
  serve_forever do_GET events a_server [] []
  = match serve_loop do_GET events a_server [] [] with
    | (None, srv', err', conns') => (None, srv', err', conns')
    | (Some res, srv', err', conns') =>
        (Some res, mk_server false true, err', conns')
    end.
Proof. reflexivity. Qed.

(** C7.  When the interrupt arrives while the server is serving, after
    any run of requests, the process exits with status 0: the
    [KeyboardInterrupt] leaves [serve_forever], whose [finally] clause
    sets the [__is_shut_down] event, so [shutdown()] returns at once
    instead of waiting for ever.  No connection is accepted after the
    interrupt (whatever events follow), the server object is left with
    its shutdown flag and its [__is_shut_down] event set, and the
    interrupt adds nothing to stderr, no traceback in particular:
    without it the same requests leave the process serving, with the
    same output. *)
Theorem interrupt_exits_with_status_0 reqs later_events :
  exists p_before p,
    main (fun _ => BindOk) (requests reqs) = (Serving, p_before) /\
    main (fun _ => BindOk) (requests reqs ++ SIGINT :: later_events)
    = (Exited 0, p) /\
    connections p = connections p_before /\
    List.length (connections p) = List.length reqs /\
    stdout p = startup_lines /\
    stderr p = stderr p_before /\
    the_server p = Some (mk_server true true).
Proof.
  assert (Hs : shutdown_request a_server = false) by reflexivity.
  exists (mk_process startup_lines (fst (served reqs a_server [] [])) 1
            (Some a_server) (snd (served reqs a_server [] []))).
  exists (mk_process startup_lines (fst (served reqs a_server [] [])) 1
            (Some (mk_server true true))
            (snd (served reqs a_server [] []))).
  split; [| split].
  - rewrite main_bound, serve_forever_unfold.
    rewrite <- (app_nil_r (requests reqs)).
    rewrite serve_loop_requests by assumption. reflexivity.
  - rewrite main_bound, serve_forever_unfold.
    rewrite serve_loop_requests by assumption. reflexivity.
  - cbn [connections stdout stderr the_server].
    rewrite served_length. repeat split.
Qed.

(** C8.  If binding localhost:8080 fails, the [OSError] raised by the
    [HTTPServer] constructor is not caught: the process exits with status
    1 and a traceback on stderr, before any startup line is printed and
    without serving anything.  The bind was attempted once, even when a
    later attempt would have succeeded. *)
Theorem bind_failure_is_fatal socket_bind errno events :
  socket_bind 0%nat = BindError errno ->
  exists code,
    code <> 0 /\
    main socket_bind events
    = (Exited code, mk_process [] [Traceback (OSError errno)] 1 None []).
Proof.
  intros Hb. exists 1. split; [discriminate |].
  unfold main, HTTPServer. rewrite Hb. reflexivity.
Qed.

Lemma bind_failure_is_fatal_witness :
  port_in_use 0%nat = BindError 98 /\
  port_in_use 1%nat = BindOk /\
  exists code,
    code <> 0 /\
    main port_in_use [Connection (get recognized_path) new_year_2024; SIGINT]
    = (Exited code, mk_process [] [Traceback (OSError 98)] 1 None []).
Proof.
  split; [reflexivity |]. split; [reflexivity |].
  exact (bind_failure_is_fatal port_in_use 98
           [Connection (get recognized_path) new_year_2024; SIGINT] eq_refl).
Defined.

(** C9, counterexample.  The program does write to the console beyond its
    startup lines: when the port cannot be bound, a traceback and no
    startup line; when a request for the recognized path is handled at
    9999-12-31T23:58:00, the report of the [OverflowError] by
    [socketserver]'s [handle_error]; and when the client has gone before
    the body is written, the report of the [BrokenPipeError]. *)
Lemma console_output_beyond_startup_lines :
  (stdout (snd (main port_in_use [])) = [] /\
   stderr (snd (main port_in_use [])) = [Traceback (OSError 98)]) /\
  stderr (snd (main (fun _ => BindOk)
                 [Connection (get recognized_path) end_of_calendar]))
  = [HandlerErrorReport ("127.0.0.1", 54321)
       (OverflowError "date value out of range")] /\
  stderr (snd (main (fun _ => BindOk)
                 [Connection (get recognized_path)
                    (peer_gone_after 1 new_year_2024)]))
  = [HandlerErrorReport ("127.0.0.1", 54321) (OSError EPIPE)].
Proof. vm_compute. repeat split. Qed.

(** The base class does log: with [BaseHTTPRequestHandler.log_message],
    [send_response] puts one access line on stderr. *)
Lemma base_class_logs_each_response code r w s :
  sys_stderr (snd (@send_response BaseHTTPRequestHandler code r w s))
  = sys_stderr s
    ++ [AccessLog (fst (client_address r))
          (String dquote ("%s" ++ String dquote " %s %s"))
          [requestline r; str_code code; "-"]].
Proof.
  cbv [send_response bind log_request HttpServer.log_message
       BaseHTTPRequestHandler base_log_message self_request modify
       send_response_only send_header the_world buffer_item ret].
  destruct (is_simple r); reflexivity.
Qed.

(** C9, as amended.  Per-request access logging is suppressed: with the
    overriding [log_message], [do_GET] writes nothing to stderr, for any
    request, on any path, at any time.  Once the socket is bound, and as
    long as the handling of every request completes (the client takes
    every write; any other path, or the recognized path up to two
    minutes before the end of the calendar), the console output of the
    program is its three startup lines on stdout and nothing on
    stderr. *)
Theorem access_log_suppressed events :
  forallb completes events = true ->
  (forall r w s, sys_stderr (snd (do_GET r w s)) = sys_stderr s) /\
  stdout (snd (main (fun _ => BindOk) events)) = startup_lines /\
  stderr (snd (main (fun _ => BindOk) events)) = [].
Proof.
  intros Hall. split; [intros r w s; apply do_GET_frame |].
  rewrite main_bound, serve_forever_unfold.
  destruct (serve_loop_quiet events a_server [] [] Hall)
    as (o & srv' & conns' & -> & [-> | [-> | ->]]); split; reflexivity.
Qed.

Lemma access_log_suppressed_witness :
  forallb completes
    [Connection (get recognized_path) new_year_2024;
     Connection (get "/nonexistent") new_year_eve; SIGINT] = true /\
  stdout (snd (main (fun _ => BindOk)
                 [Connection (get recognized_path) new_year_2024;
                  Connection (get "/nonexistent") new_year_eve; SIGINT]))
  = startup_lines /\
  stderr (snd (main (fun _ => BindOk)
                 [Connection (get recognized_path) new_year_2024;
                  Connection (get "/nonexistent") new_year_eve; SIGINT]))
  = [].
Proof.
  split; [reflexivity |].
  exact (proj2 (access_log_suppressed
                  [Connection (get recognized_path) new_year_2024;
                   Connection (get "/nonexistent") new_year_eve; SIGINT]
                  eq_refl)).
Defined.




(** * Further properties of the script *)

(** ** The calendar, the other way round *)

Lemma days_before_month_next y m :
  1 <= m <= 11 ->
  _days_before_month y (m + 1) = _days_before_month y m + _days_in_month y m.
Proof.
  intros Hm. unfold _days_before_month, _days_in_month.
  assert (Hc : m = 1 \/ m = 2 \/ m = 3 \/ m = 4 \/ m = 5 \/ m = 6 \/ m = 7
               \/ m = 8 \/ m = 9 \/ m = 10 \/ m = 11) by lia.
  destruct (_is_leap y);
    repeat (destruct Hc as [-> | Hc]; [reflexivity |]);
    subst m; reflexivity.
Qed.

Lemma days_in_month_pos y m : 1 <= m <= 12 -> 28 <= _days_in_month y m.
Proof.
  intros Hm. unfold _days_in_month.
  assert (Hc : m = 1 \/ m = 2 \/ m = 3 \/ m = 4 \/ m = 5 \/ m = 6 \/ m = 7
               \/ m = 8 \/ m = 9 \/ m = 10 \/ m = 11 \/ m = 12) by lia.
  destruct (_is_leap y);
    repeat (destruct Hc as [-> | Hc]; [vm_compute; discriminate |]);
    subst m; vm_compute; discriminate.
Qed.

(** A later month starts after the earlier one has ended. *)
Lemma days_before_month_later y (k : nat) : forall m,
  1 <= m -> m + 1 + Z.of_nat k <= 12 ->
  _days_before_month y m + _days_in_month y m
  <= _days_before_month y (m + 1 + Z.of_nat k).
Proof.
  induction k as [| k IH]; intros m Hm Hk.
  - replace (m + 1 + Z.of_nat 0) with (m + 1) by lia.
    rewrite days_before_month_next by lia. lia.
  - replace (m + 1 + Z.of_nat (S k)) with ((m + 1 + Z.of_nat k) + 1) by lia.
    rewrite days_before_month_next by lia.
    pose proof (IH m Hm ltac:(lia)).
    pose proof (days_in_month_pos y (m + 1 + Z.of_nat k) ltac:(lia)).
    lia.
Qed.

Lemma days_before_month_lt y m m' :
  1 <= m -> m < m' -> m' <= 12 ->
  _days_before_month y m + _days_in_month y m <= _days_before_month y m'.
Proof.
  intros Hm Hlt Hm'.
  replace m' with (m + 1 + Z.of_nat (Z.to_nat (m' - m - 1))) by lia.
  apply days_before_month_later; lia.
Qed.

(** Two dates of the calendar with the same ordinal are the same date. *)
Lemma ymd2ord_injective y m d y' m' d' :
  1 <= y -> 1 <= m <= 12 -> 1 <= d <= _days_in_month y m ->
  1 <= y' -> 1 <= m' <= 12 -> 1 <= d' <= _days_in_month y' m' ->
  _ymd2ord y m d = _ymd2ord y' m' d' ->
  y = y' /\ m = m' /\ d = d'.
Proof.
  intros Hy Hm Hd Hy' Hm' Hd' Heq. unfold _ymd2ord in Heq.
  pose proof (month_span y m Hm) as (H0 & H1 & _).
  pose proof (month_span y' m' Hm') as (H0' & H1' & _).
  pose proof (days_before_year_next y) as Hn.
  pose proof (days_before_year_next y') as Hn'.
  assert (Hyy : y = y').
  { destruct (Z.lt_trichotomy y y') as [Hlt | [Hyy | Hgt]]; [| assumption |].
    - pose proof (days_before_year_mono (y + 1) y' ltac:(lia)). lia.
    - pose proof (days_before_year_mono (y' + 1) y ltac:(lia)). lia. }
  subst y'. split; [reflexivity |].
  assert (Hmm : m = m').
  { destruct (Z.lt_trichotomy m m') as [Hlt | [Hmm | Hgt]]; [| assumption |].
    - pose proof (days_before_month_lt y m m' ltac:(lia) Hlt ltac:(lia)). lia.
    - pose proof (days_before_month_lt y m' m ltac:(lia) Hgt ltac:(lia)). lia. }
  subst m'. split; [reflexivity | lia].
Qed.

(** [_ord2ymd] takes the ordinal of a date back to the date. *)
Lemma ord2ymd_ymd2ord d :
  check_fields d = true ->
  _ord2ymd (toordinal d) = (year d, month d, day d).
Proof.
  intros Hc. pose proof (toordinal_bounds d Hc) as Hord.
  apply check_fields_iff in Hc. destruct Hc as (Hy & Hm & Hd & _).
  pose proof (ord2ymd_spec (toordinal d) Hord) as Hspec.
  destruct (_ord2ymd (toordinal d)) as [[y' m'] d'].
  destruct Hspec as (Hy' & Hm' & Hd' & Hback).
  unfold toordinal in Hback.
  destruct (ymd2ord_injective y' m' d' (year d) (month d) (day d))
    as (-> & -> & ->); try assumption; try lia.
  reflexivity.
Qed.

(** ** Two minutes later, field by field *)

Lemma datetime_add_fields now later :
  check_fields now = true ->
  datetime_add now (timedelta 0 0 0 2 0) = Some later ->
  second later = second now /\
  microsecond later = microsecond now /\
  minute later = (minute now + 2) mod 60 /\
  hour later = (hour now + (minute now + 2) / 60) mod 24 /\
  (minute now <= 57 \/ hour now <= 22 ->
   year later = year now /\ month later = month now /\ day later = day now).
Proof.
  intros Hc Ha.
  pose proof (ord2ymd_ymd2ord now Hc) as Hback.
  apply check_fields_iff in Hc.
  destruct Hc as (Hy & Hm & Hd & Hh & Hmi & Hs & Hus).
  unfold datetime_add in Ha.
  rewrite delta_plus_two_minutes in Ha by assumption.
  cbn [td_days td_seconds td_microseconds] in Ha.
  set (T := hour now * 3600 + minute now * 60 + second now + 120) in *.
  destruct ((0 <? toordinal now + T / 86400)
            && (toordinal now + T / 86400 <=? _MAXORDINAL)); [| discriminate].
  destruct (_ord2ymd (toordinal now + T / 86400)) as [[y m] d] eqn:Hymd.
  apply some_inj in Ha. subst later.
  cbn [year month day hour minute second microsecond].
  split; [unfold T; divlia |]. split; [reflexivity |].
  split; [unfold T; divlia |]. split; [unfold T; divlia |].
  intros Hsame.
  assert (H0 : T / 86400 = 0) by (unfold T; divlia).
  rewrite H0, Z.add_0_r, Hback in Hymd.
  injection Hymd as <- <- <-. auto.
Qed.

(** ** One connection, in full *)



(** X2.  The only header [do_GET] adds to those of the library is
    Content-type, and only on the 200 response: a response carries the
    headers Server, Date and, with status 200, Content-type, in that
    order; it never carries Content-Length (the body ends where the
    connection is closed), and the 404 response has no Content-Type and
    an empty body. *)
Theorem response_headers_sent r w srv err resp :
  response_to r w srv err = Some resp ->
  header_names resp
  = (if status_code resp =? 200 then ["Server"; "Date"; "Content-type"]
     else ["Server"; "Date"]) /\
  header_values "Content-Length" (response_headers resp) = [] /\
  (status_code resp <> 200 ->
   header_values "Content-Type" (response_headers resp) = [] /\
   body resp = "").
Proof.
  intros Hresp.
  destruct (response_cases r w srv err resp Hresp)
    as (_ & [(_ & _ & _ & ->) | (_ & _ & later & _ & _ & ->)]).
  - repeat split.
  - unfold header_names.
    cbn [status_code response_headers body map fst].
    split; [reflexivity |]. split; [reflexivity |].
    intros Hne. exfalso. apply Hne. reflexivity.
Qed.

Lemma response_headers_sent_witness :
  exists resp,
    response_to (get recognized_path) new_year_2024 a_server [] = Some resp /\
    header_names resp
    = (if status_code resp =? 200 then ["Server"; "Date"; "Content-type"]
       else ["Server"; "Date"]) /\
    header_values "Content-Length" (response_headers resp) = [] /\
    (status_code resp <> 200 ->
     header_values "Content-Type" (response_headers resp) = [] /\
     body resp = "").
Proof.
  eexists. split; [reflexivity |].
  apply (response_headers_sent (get recognized_path) new_year_2024
           a_server []).
  reflexivity.
Defined.

(** X3.  The noticeTime is the clock reading with two minutes added
    field by field: read back, it is a date and time of the calendar
    (no minute 60 or 61, no hour 24) with the second and microsecond
    fields of the clock reading, the minute advanced by two modulo 60,
    the hour advanced by the carry modulo 24, and, unless the reading is
    in the last two minutes of a day, the same year, month and day. *)
Theorem notice_time_fields r w srv err resp :
  path r = recognized_path ->
  check_fields (utcnow w) = true ->
  response_to r w srv err = Some resp ->
  exists s t,
    notice_time_of resp = Some s /\
    read_notice_time s = Some t /\
    check_fields t = true /\
    second t = second (utcnow w) /\
    microsecond t = microsecond (utcnow w) /\
    minute t = (minute (utcnow w) + 2) mod 60 /\
    hour t = (hour (utcnow w) + (minute (utcnow w) + 2) / 60) mod 24 /\
    (minute (utcnow w) <= 57 \/ hour (utcnow w) <= 22 ->
     year t = year (utcnow w) /\ month t = month (utcnow w)
     /\ day t = day (utcnow w)).
Proof.
  intros Hp Hv Hresp.
  destruct (response_datetime r w srv err resp Hp Hv Hresp)
    as (later & Ha & Hc & _ & Hs).
  exists (isoformat later ++ "Z")%string, later.
  split; [assumption |]. split; [apply read_isoformat; assumption |].
  split; [assumption |].
  apply datetime_add_fields; assumption.
Qed.

Lemma notice_time_fields_witness :
  (path (get recognized_path) = recognized_path /\
   check_fields (utcnow new_year_eve) = true) /\
  exists resp s t,
    response_to (get recognized_path) new_year_eve a_server [] = Some resp /\
    notice_time_of resp = Some s /\
    read_notice_time s = Some t /\
    check_fields t = true /\
    second t = second (utcnow new_year_eve) /\
    microsecond t = microsecond (utcnow new_year_eve) /\
    minute t = (minute (utcnow new_year_eve) + 2) mod 60 /\
    hour t = (hour (utcnow new_year_eve)
              + (minute (utcnow new_year_eve) + 2) / 60) mod 24 /\
    (minute (utcnow new_year_eve) <= 57 \/ hour (utcnow new_year_eve) <= 22 ->
     year t = year (utcnow new_year_eve) /\ month t = month (utcnow new_year_eve)
     /\ day t = day (utcnow new_year_eve)).
Proof.
  split; [split; reflexivity |].
  eexists.
  destruct (notice_time_fields (get recognized_path) new_year_eve a_server []
              _ eq_refl eq_refl eq_refl) as (s & t & H).
  exists s, t. split; [reflexivity | exact H].
Defined.

(** ** The bytes of the body *)

Lemma plain_app a b : plain (a ++ b) = plain a && plain b.
Proof.
  induction a as [| c a IH]; simpl; [reflexivity |].
  now rewrite IH, andb_assoc.
Qed.

Lemma plain_digit d : 0 <= d <= 9 -> plain_char (digit d) = true.
Proof.
  intros Hd. unfold plain_char, digit. rewrite code_chr by lia.
  rewrite !andb_true_iff, !negb_true_iff, !Z.leb_le, !Z.eqb_neq. lia.
Qed.

Lemma plain_fmt w : forall n,
  0 <= n < 10 ^ Z.of_nat w -> plain (fmt_0d w n) = true.
Proof.
  induction w as [| w IH]; intros n Hn; [reflexivity |].
  destruct (leading_digit w n Hn) as [Hq Hr].
  cbn [fmt_0d plain]. now rewrite plain_digit, IH.
Qed.

Lemma length_fmt w : forall n, String.length (fmt_0d w n) = w.
Proof.
  induction w as [| w IH]; intros n; cbn [fmt_0d String.length];
    [reflexivity | now rewrite IH].
Qed.

Lemma length_append a b :
  String.length (a ++ b) = (String.length a + String.length b)%nat.
Proof. induction a as [| c a IH]; simpl; [reflexivity | now rewrite IH]. Qed.

Lemma escape_char_plain c :
  plain_char c = true -> Json.escape_char c = String c EmptyString.
Proof.
  intros H.
  destruct c as [[] [] [] [] [] [] [] []];
    solve [reflexivity | vm_compute in H; discriminate H].
Qed.

Lemma escape_plain s : plain s = true -> Json.escape s = s.
Proof.
  induction s as [| c s IH]; [reflexivity |].
  cbn [plain Json.escape]. intros H. apply andb_true_iff in H as [Hc Hs].
  now rewrite escape_char_plain, IH.
Qed.

Section IsoformatText.
Variable d : datetime.
Hypothesis Hd : check_fields d = true.

(** The timestamp needs no escaping in JSON. *)
Lemma isoformat_plain : plain (isoformat d ++ "Z") = true.
Proof.
  destruct (field_ranges d Hd) as (Hy & Hm & Hday & Hh & Hmi & Hs & Hus).
  rewrite isoformat_Z.
  repeat (rewrite plain_app, plain_fmt by field_bounds;
          cbn [plain andb]; rewrite ?andb_true_l;
          try (change (plain_char ?c) with true; cbn [andb])).
  destruct (microsecond d =? 0); [reflexivity |].
  cbn [plain]. change (plain_char ".") with true. cbn [andb].
  rewrite plain_app, plain_fmt by field_bounds. reflexivity.
Qed.

(** Twenty characters, or twenty-seven with the fraction. *)
Lemma isoformat_length :
  String.length (isoformat d ++ "Z")
  = if microsecond d =? 0 then 20%nat else 27%nat.
Proof.
  rewrite isoformat_Z.
  destruct (microsecond d =? 0);
    repeat (rewrite length_append, length_fmt; cbn [String.length]);
    reflexivity.
Qed.

End IsoformatText.

(** The bytes [json.dumps(...).encode()] gives for a plain string. *)
Lemma encode_dumps_plain s :
  plain s = true ->
  encode (Json.dumps [("noticeTime", s)]) = notice_body s.
Proof.
  intros Hs. rewrite encode_ascii by apply dumps_one_ascii.
  rewrite dumps_one, (escape_plain s Hs). reflexivity.
Qed.

Lemma notice_body_length s :
  String.length (notice_body s) = (18 + String.length s)%nat.
Proof.
  unfold notice_body. cbn [append String.length].
  rewrite length_append. cbn [String.length]. lia.
Qed.

(** X4.  The body of a response to the recognized path is, byte for
    byte, the text [{"noticeTime": "<timestamp>"}] with one space after
    the colon and the timestamp unescaped; it is pure ASCII, 38 bytes
    long when the microsecond field of the clock reading is zero and 45
    bytes long otherwise. *)
Theorem notice_body_bytes r w srv err resp :
  path r = recognized_path ->
  check_fields (utcnow w) = true ->
  response_to r w srv err = Some resp ->
  exists s,
    notice_time_of resp = Some s /\
    body resp = notice_body s /\
    is_ascii (body resp) = true /\
    String.length (body resp)
    = if microsecond (utcnow w) =? 0 then 38%nat else 45%nat.
Proof.
  intros Hp Hv Hresp.
  destruct (response_datetime r w srv err resp Hp Hv Hresp)
    as (later & Ha & Hc & Heq & Hs).
  destruct (datetime_add_fields (utcnow w) later Hv Ha) as (_ & Hus & _).
  exists (isoformat later ++ "Z")%string.
  split; [assumption |].
  rewrite Heq. cbn [body].
  split; [apply encode_dumps_plain, isoformat_plain; assumption |].
  split; [rewrite encode_ascii; apply dumps_one_ascii |].
  rewrite encode_dumps_plain by (apply isoformat_plain; assumption).
  rewrite notice_body_length, isoformat_length by assumption.
  rewrite Hus. destruct (microsecond (utcnow w) =? 0); reflexivity.
Qed.

Lemma notice_body_bytes_witness :
  (path (get recognized_path) = recognized_path /\
   check_fields (utcnow new_year_eve) = true) /\
  exists resp s,
    response_to (get recognized_path) new_year_eve a_server [] = Some resp /\
    notice_time_of resp = Some s /\
    body resp = notice_body s /\
    is_ascii (body resp) = true /\
    String.length (body resp)
    = if microsecond (utcnow new_year_eve) =? 0 then 38%nat else 45%nat.
Proof.
  split; [split; reflexivity |].
  eexists.
  destruct (notice_body_bytes (get recognized_path) new_year_eve a_server []
              _ eq_refl eq_refl eq_refl) as (s & H).
  exists s. split; [reflexivity | exact H].
Defined.

(** ** The order of the noticeTime texts *)

Lemma ascii_compare_refl c : Ascii.compare c c = Eq.
Proof. unfold Ascii.compare. apply N.compare_refl. Qed.

Lemma compare_cons c a b :
  String.compare (String c a) (String c b) = String.compare a b.
Proof. cbn [String.compare]. now rewrite ascii_compare_refl. Qed.

Lemma compare_app p a b :
  String.compare (p ++ a) (p ++ b) = String.compare a b.
Proof.
  induction p as [| c p IH]; [reflexivity |].
  cbn [append]. now rewrite compare_cons.
Qed.

(** Within one second, the sum does not depend on the microseconds, which
    it carries over. *)
Lemma datetime_add_replace_microsecond now later us :
  check_fields now = true ->
  0 <= us <= 999999 ->
  datetime_add now (timedelta 0 0 0 2 0) = Some later ->
  datetime_add (replace_microsecond now us) (timedelta 0 0 0 2 0)
  = Some (replace_microsecond later us).
Proof.
  intros Hc Hus Ha.
  apply check_fields_iff in Hc.
  destruct Hc as (Hy & Hm & Hd & Hh & Hmi & Hs & Hus').
  unfold datetime_add in *.
  change (toordinal (replace_microsecond now us)) with (toordinal now).
  cbn [replace_microsecond hour minute second microsecond].
  rewrite delta_plus_two_minutes in * by assumption.
  cbn [td_days td_seconds td_microseconds] in *.
  destruct ((0 <? _) && _); [| discriminate].
  destruct (_ord2ymd _) as [[y m] d].
  apply some_inj in Ha. subst later. reflexivity.
Qed.

(** X5.  The noticeTime texts do not sort the way the instants do.  Of
    two clock readings within the same second, the first on the second
    exactly and the other later, the first gets the earlier noticeTime
    instant and the text that compares greater: it ends in [Z] where the
    other has the [.] of its fraction. *)
Theorem notice_time_text_order r1 w1 r2 w2 srv err resp1 resp2 us :
  path r1 = recognized_path -> path r2 = recognized_path ->
  check_fields (utcnow w1) = true ->
  microsecond (utcnow w1) = 0 ->
  0 < us <= 999999 ->
  utcnow w2 = replace_microsecond (utcnow w1) us ->
  response_to r1 w1 srv err = Some resp1 ->
  response_to r2 w2 srv err = Some resp2 ->
  exists s1 s2 t1 t2,
    notice_time_of resp1 = Some s1 /\ notice_time_of resp2 = Some s2 /\
    read_notice_time s1 = Some t1 /\ read_notice_time s2 = Some t2 /\
    instant t1 < instant t2 /\
    String.compare s1 s2 = Gt.
Proof.
  intros Hp1 Hp2 Hv1 Hz Hus Hw2 Hresp1 Hresp2.
  assert (Hv2 : check_fields (utcnow w2) = true).
  { rewrite Hw2. apply check_fields_iff. apply check_fields_iff in Hv1.
    cbn [replace_microsecond year month day hour minute second microsecond].
    intuition lia. }
  destruct (response_datetime r1 w1 srv err resp1 Hp1 Hv1 Hresp1)
    as (t1 & Ha1 & Hc1 & _ & Hs1).
  destruct (response_datetime r2 w2 srv err resp2 Hp2 Hv2 Hresp2)
    as (t2 & Ha2 & Hc2 & _ & Hs2).
  destruct (datetime_add_fields (utcnow w1) t1 Hv1 Ha1) as (_ & Hus1 & _).
  rewrite Hw2 in Ha2.
  rewrite (datetime_add_replace_microsecond (utcnow w1) t1 us Hv1
             ltac:(lia) Ha1) in Ha2.
  apply some_inj in Ha2. subst t2.
  exists (isoformat t1 ++ "Z")%string,
         (isoformat (replace_microsecond t1 us) ++ "Z")%string,
         t1, (replace_microsecond t1 us).
  split; [assumption |]. split; [assumption |].
  split; [apply read_isoformat; assumption |].
  split; [apply read_isoformat; assumption |].
  split.
  - unfold instant.
    change (toordinal (replace_microsecond t1 us)) with (toordinal t1).
    cbn [replace_microsecond hour minute second microsecond]. lia.
  - rewrite !isoformat_Z.
    cbn [replace_microsecond year month day hour minute second microsecond].
    repeat (rewrite compare_app, compare_cons).
    rewrite compare_app.
    rewrite Hus1, Hz.
    replace (us =? 0) with false by (symmetry; apply Z.eqb_neq; lia).
    reflexivity.
Qed.

Lemma notice_time_text_order_witness :
  (path (get recognized_path) = recognized_path /\
   check_fields (utcnow new_year_2024) = true /\
   microsecond (utcnow new_year_2024) = 0 /\
   0 < 1 <= 999999) /\
  exists resp1 resp2 s1 s2 t1 t2,
    response_to (get recognized_path) new_year_2024 a_server [] = Some resp1 /\
    response_to (get recognized_path)
      (at_time (replace_microsecond (utcnow new_year_2024) 1)
               "Mon, 01 Jan 2024 00:00:00 GMT") a_server [] = Some resp2 /\
    notice_time_of resp1 = Some s1 /\ notice_time_of resp2 = Some s2 /\
    read_notice_time s1 = Some t1 /\ read_notice_time s2 = Some t2 /\
    instant t1 < instant t2 /\
    String.compare s1 s2 = Gt.
Proof.
  split; [repeat split; lia |].
  eexists. eexists.
  destruct (notice_time_text_order
              (get recognized_path) new_year_2024
              (get recognized_path)
              (at_time (replace_microsecond (utcnow new_year_2024) 1)
                       "Mon, 01 Jan 2024 00:00:00 GMT")
              a_server [] _ _ 1
              eq_refl eq_refl eq_refl eq_refl ltac:(lia) eq_refl
              eq_refl eq_refl) as (s1 & s2 & t1 & t2 & H).
  exists s1, s2, t1, t2.
  split; [reflexivity |]. split; [reflexivity | exact H].
Defined.

(** ** A handler that raises *)





(** ** From the noticeTime back to the clock *)

(** Days, hours, minutes, seconds and microseconds are determined by the
    number of microseconds they add up to. *)
Lemma mixed_radix o1 h1 m1 s1 u1 o2 h2 m2 s2 u2 :
  0 <= h1 <= 23 -> 0 <= m1 <= 59 -> 0 <= s1 <= 59 -> 0 <= u1 <= 999999 ->
  0 <= h2 <= 23 -> 0 <= m2 <= 59 -> 0 <= s2 <= 59 -> 0 <= u2 <= 999999 ->
  ((o1 - 1) * 86400 + h1 * 3600 + m1 * 60 + s1) * 1000000 + u1
  = ((o2 - 1) * 86400 + h2 * 3600 + m2 * 60 + s2) * 1000000 + u2 ->
  o1 = o2 /\ h1 = h2 /\ m1 = m2 /\ s1 = s2 /\ u1 = u2.
Proof. intros. lia. Qed.

(** A datetime is determined by its instant. *)
Lemma instant_injective d1 d2 :
  check_fields d1 = true -> check_fields d2 = true ->
  instant d1 = instant d2 -> d1 = d2.
Proof.
  destruct d1 as [y1 mo1 dd1 h1 mi1 s1 u1].
  destruct d2 as [y2 mo2 dd2 h2 mi2 s2 u2].
  rewrite !check_fields_iff. unfold instant, toordinal.
  cbn [year month day hour minute second microsecond].
  intros (Hy1 & Hm1 & Hd1 & Hh1 & Hmi1 & Hs1 & Hus1)
         (Hy2 & Hm2 & Hd2 & Hh2 & Hmi2 & Hs2 & Hus2) Heq.
  destruct (mixed_radix _ _ _ _ _ _ _ _ _ _
              Hh1 Hmi1 Hs1 Hus1 Hh2 Hmi2 Hs2 Hus2 Heq)
    as (Hord & -> & -> & -> & ->).
  destruct (ymd2ord_injective y1 mo1 dd1 y2 mo2 dd2)
    as (-> & -> & ->); try assumption; try lia.
  reflexivity.
Qed.

(** X7.  The noticeTime identifies the clock reading: two answered
    requests for the recognized path whose responses carry the same
    noticeTime text were handled at the same [utcnow()] reading, field
    for field.  No two different readings share a noticeTime. *)
Theorem notice_time_identifies_reading
    r1 w1 r2 w2 srv1 err1 srv2 err2 resp1 resp2 :
  path r1 = recognized_path -> path r2 = recognized_path ->
  check_fields (utcnow w1) = true -> check_fields (utcnow w2) = true ->
  response_to r1 w1 srv1 err1 = Some resp1 ->
  response_to r2 w2 srv2 err2 = Some resp2 ->
  notice_time_of resp1 = notice_time_of resp2 ->
  utcnow w1 = utcnow w2.
Proof.
  intros Hp1 Hp2 Hv1 Hv2 Hresp1 Hresp2 Heq.
  destruct (response_is_notice r1 w1 srv1 err1 resp1 Hp1 Hv1 Hresp1)
    as (t1 & Hc1 & Hi1 & _ & _ & Hs1).
  destruct (response_is_notice r2 w2 srv2 err2 resp2 Hp2 Hv2 Hresp2)
    as (t2 & Hc2 & Hi2 & _ & _ & Hs2).
  rewrite Hs1, Hs2 in Heq. apply some_inj in Heq.
  pose proof (read_isoformat t1 Hc1) as Hr1.
  pose proof (read_isoformat t2 Hc2) as Hr2.
  rewrite Heq, Hr2 in Hr1. apply some_inj in Hr1. subst t2.
  apply instant_injective; try assumption. lia.
Qed.

Lemma notice_time_identifies_reading_witness :
  (path (get recognized_path) = recognized_path /\
   check_fields (utcnow new_year_eve) = true) /\
  utcnow new_year_eve
  = utcnow (at_time (mk_datetime 2023 12 31 23 59 30 5)
                    "Sun, 31 Dec 2023 23:59:31 GMT").
Proof.
  split; [split; reflexivity |].
  exact (notice_time_identifies_reading
           (get recognized_path) new_year_eve
           (get "/latest/meta-data/rebalance-recommendation")
           (at_time (mk_datetime 2023 12 31 23 59 30 5)
                    "Sun, 31 Dec 2023 23:59:31 GMT")
           a_server [] (mk_server false true) []
           _ _ eq_refl eq_refl eq_refl eq_refl eq_refl eq_refl eq_refl).
Defined.
